(** * Expense tracker: the [/expense] router over its document store

    A shallow embedding of the expense router ([expenseRouter], mounted at
    [/expense]) and of the [ExpenseSchema] declared in the database module,
    together with the parts of the validation library (zod) and of the
    object-document mapper (mongoose) that the handlers call.

    Embedded handlers: [POST /add], [POST /add/bulk], [GET /recent],
    [GET /date-range], [GET /top], [GET /all], [POST /duplicate/:id],
    [DELETE /bulk], [GET /:id], [PUT /:id], [DELETE /:id],
    [GET /stats/summary] and [GET /stats/categories].

    Conventions.
    - A JavaScript value is a [Value]; [undefined] is [None : option Value].
    - A JavaScript number is a rational [Q] ([NaN] is [None]); binary
      floating point rounding is not modelled.
    - A date is its time value in milliseconds, a [Z].
    - The collection is a list of documents in insertion order; a handler is
      a function from the collection to a response and the new collection.
    - [req.user._id], which the guard attaches to the request, is the
      ObjectId of the caller.
    - What the JavaScript runtime and the store's driver compute from text
      (string to number, string to date, string to ObjectId), the ObjectId
      of a new document, the treatment of a fractional limit and the local
      calendar are parameters of the development. *)

From Stdlib Require Import String Ascii List ZArith NArith QArith Qround Bool Lia.
From Stdlib Require Import Permutation Sorted.
From Stdlib Require DecimalString.
Import ListNotations.

Local Open Scope string_scope.
Local Open Scope list_scope.

(* ================================================================== *)
(** ** JavaScript values *)
(* ================================================================== *)

(** A 12-byte ObjectId, read as a natural number. *)
Definition ObjectId := N.

#[warnings="-register-all"]
Inductive Value : Type :=
| Null
| Bool (b : bool)
| Num (q : Q)
| Str (s : string)
| Arr (xs : list Value)
| Obj (fields : list (string * Value))
| Date (t : Z)
| Oid (o : ObjectId).

(** An object literal: keys in order, the first binding of a key wins on
    lookup (so a later spread or assignment is modelled by putting the
    overriding binding first, see [assign]). *)
Definition Object := list (string * Value).

Fixpoint lookup (k : string) (o : Object) : option Value :=
  match o with
  | [] => None
  | (k', v) :: o' => if String.eqb k k' then Some v else lookup k o'
  end.

(** [v.k]: property access; [undefined] on anything that is not an object. *)
Definition prop (v : Value) (k : string) : option Value :=
  match v with
  | Obj o => lookup k o
  | _ => None
  end.

(** [{ ...o, k: v }]: the binding for [k] replaces any binding [o] has. *)
Definition assign (o : Object) (k : string) (v : Value) : Object :=
  (k, v) :: filter (fun kv => negb (String.eqb k (fst kv))) o.

(** [{ k }] with [k] possibly [undefined]: mongoose reads an undefined
    property as an absent one. *)
Definition binding (k : string) (v : option Value) : Object :=
  match v with
  | Some x => [(k, x)]
  | None => []
  end.

(* ================================================================== *)
(** ** The validation library *)
(* ================================================================== *)

Module Zod.

Inductive IssueCode :=
| invalid_type
| too_small
| too_big
| invalid_enum_value
| invalid_date.

Inductive PathSeg :=
| Key (k : string)
| Idx (i : nat).

Record ZodIssue := mkIssue { code : IssueCode; path : list PathSeg }.

(** The result of [safeParse]: [success] with the parsed [data], or
    failure with the [error] (its list of issues). *)
Inductive SafeParse (A : Type) :=
| Success (data : A)
| Failure (error : list ZodIssue).
Arguments Success {A} data.
Arguments Failure {A} error.

Definition success {A} (r : SafeParse A) : bool :=
  match r with
  | Success _ => true
  | Failure _ => false
  end.

Definition issues {A} (r : SafeParse A) : list ZodIssue :=
  match r with
  | Success _ => []
  | Failure e => e
  end.

(** A schema, as the function that parses the value found at a path. *)
Definition ZodType (A : Type) := list PathSeg -> option Value -> SafeParse A.

Definition safeParse {A} (z : ZodType A) (v : Value) : SafeParse A :=
  z [] (Some v).

(** Object fields are all parsed and their issues collected. *)
Definition ap {A B} (f : SafeParse (A -> B)) (x : SafeParse A) : SafeParse B :=
  match f, x with
  | Success g, Success a => Success (g a)
  | Success _, Failure e => Failure e
  | Failure e, Success _ => Failure e
  | Failure e1, Failure e2 => Failure (e1 ++ e2)
  end.

Definition fmap {A B} (f : A -> B) (x : SafeParse A) : SafeParse B :=
  ap (Success f) x.

(** [z.string().min(n)] *)
Definition string_min (n : nat) : ZodType string :=
  fun p v =>
    match v with
    | Some (Str s) =>
        if (n <=? String.length s)%nat then Success s
        else Failure [mkIssue too_small p]
    | _ => Failure [mkIssue invalid_type p]
    end.

(** Checks chained on a number schema; every check is run. *)
Inductive NumCheck :=
| Positive
| Max (bound : Q).

Definition check_number (p : list PathSeg) (q : Q) (c : NumCheck) : list ZodIssue :=
  match c with
  | Positive => if Qle_bool q 0 then [mkIssue too_small p] else []
  | Max b => if Qle_bool q b then [] else [mkIssue too_big p]
  end.

Definition checked_number (checks : list NumCheck) (p : list PathSeg) (n : option Q)
  : SafeParse Q :=
  match n with
  | None => Failure [mkIssue invalid_type p]
  | Some q =>
      match flat_map (check_number p q) checks with
      | [] => Success q
      | e => Failure e
      end
  end.

(** [z.number()] followed by its checks. *)
Definition number (checks : list NumCheck) : ZodType Q :=
  fun p v =>
    match v with
    | Some (Num q) => checked_number checks p (Some q)
    | _ => Failure [mkIssue invalid_type p]
    end.

(** [z.enum([...])] *)
Definition enum (values : list string) : ZodType string :=
  fun p v =>
    match v with
    | Some (Str s) =>
        if existsb (String.eqb s) values then Success s
        else Failure [mkIssue invalid_enum_value p]
    | _ => Failure [mkIssue invalid_type p]
    end.

(** [.optional()] *)
Definition optional {A} (z : ZodType A) : ZodType (option A) :=
  fun p v =>
    match v with
    | None => Success None
    | Some _ => fmap Some (z p v)
    end.

(** [z.coerce.number()] followed by its checks: the input goes through
    [Number(...)] first ([None] is [NaN]; [Number(undefined)] is [NaN]). *)
Definition coerce_number (Number : Value -> option Q) (checks : list NumCheck)
  : ZodType Q :=
  fun p v =>
    match v with
    | Some x => checked_number checks p (Number x)
    | None => Failure [mkIssue invalid_type p]
    end.

(** [z.coerce.date()]: the input goes through [new Date(...)] first
    ([None] is an invalid date; [new Date(undefined)] is invalid). *)
Definition coerce_date (newDate : Value -> option Z) : ZodType Z :=
  fun p v =>
    match v with
    | Some x =>
        match newDate x with
        | Some t => Success t
        | None => Failure [mkIssue invalid_date p]
        end
    | None => Failure [mkIssue invalid_date p]
    end.

(** [.default(d)] *)
Definition default {A} (z : ZodType A) (d : Value) : ZodType A :=
  fun p v =>
    match v with
    | None => z p (Some d)
    | Some _ => z p v
    end.

Fixpoint elements {A} (z : ZodType A) (p : list PathSeg) (i : nat) (xs : list Value)
  : SafeParse (list A) :=
  match xs with
  | [] => Success []
  | x :: xs' => ap (fmap cons (z (p ++ [Idx i]) (Some x))) (elements z p (S i) xs')
  end.

(** [z.array(z).min(lo).max(hi)] *)
Definition array {A} (z : ZodType A) (lo hi : nat) : ZodType (list A) :=
  fun p v =>
    match v with
    | Some (Arr xs) =>
        let size :=
          (if (lo <=? length xs)%nat then [] else [mkIssue too_small p]) ++
          (if (length xs <=? hi)%nat then [] else [mkIssue too_big p]) in
        match size, elements z p 0 xs with
        | [], r => r
        | e, r => Failure (e ++ issues r)
        end
    | _ => Failure [mkIssue invalid_type p]
    end.

(** [z.object({...})]: the shape parses the fields of an object; unknown
    keys are not an error (they are left out of the parsed data). *)
Definition object {A} (shape : list PathSeg -> Value -> SafeParse A) : ZodType A :=
  fun p v =>
    match v with
    | Some (Obj o) => shape p (Obj o)
    | _ => Failure [mkIssue invalid_type p]
    end.

Definition field {A} (k : string) (z : ZodType A) (p : list PathSeg) (o : Value)
  : SafeParse A :=
  z (p ++ [Key k]) (prop o k).

End Zod.

Notation "f <*> x" := (Zod.ap f x) (at level 52, left associativity).

(* ================================================================== *)
(** ** The data model: [ExpenseSchema] *)
(* ================================================================== *)

(** [type: { type: String, enum: ['income', 'expense'], required: true }] *)
Inductive ExpenseType :=
| T_income
| T_expense.

Definition ExpenseType_eqb (a b : ExpenseType) : bool :=
  match a, b with
  | T_income, T_income | T_expense, T_expense => true
  | _, _ => false
  end.

Definition type_name (t : ExpenseType) : string :=
  match t with
  | T_income => "income"
  | T_expense => "expense"
  end.

Definition type_of_name (s : string) : option ExpenseType :=
  if String.eqb s "income" then Some T_income
  else if String.eqb s "expense" then Some T_expense
  else None.

(** A stored expense document. [title], [description], [amount] and [type]
    are present in every document the handlers write; [date] and [userId]
    can hold [null] ([None]). *)
Record Expense := mkExpense {
  _id : ObjectId;
  title : string;
  description : string;
  amount : Q;
  date : option Z;
  type : ExpenseType;
  userId : option ObjectId
}.

(** The collection, in insertion order. *)
Definition Store := list Expense.

(** The ids in use. *)
Definition ids (s : Store) : list ObjectId := map _id s.

(** The owner filter [{ userId: caller }]. *)
Definition owned_by (caller : ObjectId) (d : Expense) : bool :=
  match userId d with
  | Some u => N.eqb u caller
  | None => false
  end.

(* ================================================================== *)
(** ** Calls on the store: state and exceptions *)
(* ================================================================== *)

(** What a call inside [try] can throw. *)
Inductive Exception :=
| CastError (path : string)
| ValidatorError (path : string)
| DuplicateKey (id : ObjectId)
| ImmutableField (path : string)
| BadValue (what : string)
| TypeError (what : string).

Inductive Outcome (A : Type) :=
| Done (a : A)
| Thrown (e : Exception).
Arguments Done {A} a.
Arguments Thrown {A} e.

(** An awaited call: it reads and writes the collection, and returns or
    throws. *)
Definition DB (A : Type) := Store -> Outcome A * Store.

Definition ret {A} (a : A) : DB A := fun s => (Done a, s).

Definition throw {A} (e : Exception) : DB A := fun s => (Thrown e, s).

Definition bind {A B} (m : DB A) (k : A -> DB B) : DB B :=
  fun s =>
    match m s with
    | (Done a, s') => k a s'
    | (Thrown e, s') => (Thrown e, s')
    end.

Definition lift {A} (o : Outcome A) : DB A := fun s => (o, s).

Notation "x <- m ;; k" := (bind m (fun x => k))
  (at level 61, m at next level, right associativity).

Definition bindO {A B} (m : Outcome A) (k : A -> Outcome B) : Outcome B :=
  match m with
  | Done a => k a
  | Thrown e => Thrown e
  end.

Notation "x <~ m ;; k" := (bindO m (fun x => k))
  (at level 61, m at next level, right associativity).

Fixpoint mapO {A B} (f : A -> Outcome B) (xs : list A) : Outcome (list B) :=
  match xs with
  | [] => Done []
  | x :: xs' => y <~ f x ;; ys <~ mapO f xs' ;; Done (y :: ys)
  end.

(** [try { ... } catch (error) { ... }] around the awaited calls of a
    handler. *)
Definition try_catch {A} (m : DB A) (handler : Exception -> A) : Store -> A * Store :=
  fun s =>
    match m s with
    | (Done a, s') => (a, s')
    | (Thrown e, s') => (handler e, s')
    end.

(* ================================================================== *)
(** ** Requests and responses *)
(* ================================================================== *)

Import Zod.

(** One group of the [$group] stage of the summary. *)
Module Group.
Record t := mk {
  _id : ExpenseType;
  total : Q;
  count : nat;
  average : Q
}.
End Group.

(** The JSON bodies the handlers send. *)
Inductive Body :=
| Invalid (message : string) (error : list ZodIssue)
| Failed (message : string) (error : Exception)
| Message (message : string)
| OneExpense (message : string) (expense : Expense)
| FoundExpense (expense : Expense)
| ManyExpenses (message : string) (expenses : list Expense)
| Expenses (expenses : list Expense)
| DeletedMany (message : string) (deletedCount : nat)
| Summary (totalIncome totalExpenses balance : Q) (breakdown : list Group.t).

Record Response := mkResponse { status : nat; json : Body }.

Definition Handler := Store -> Response * Store.

(** [return res.status(n).json(b)] before any call on the store. *)
Definition respond (n : nat) (b : Body) : Handler :=
  fun s => (mkResponse n b, s).

(** A number in a template string. *)
Definition decimal (n : nat) : string :=
  DecimalString.NilEmpty.string_of_uint (Nat.to_uint n).

(** The parsed data of the schemas. *)
Record ExpenseInput := mkExpenseInput {
  in_title : string;
  in_description : string;
  in_amount : Q;
  in_date : Z;
  in_type : string
}.

Record ExpenseUpdate := mkExpenseUpdate {
  up_title : option string;
  up_description : option string;
  up_amount : option Q;
  up_date : option Z;
  up_type : option string
}.

Record TopQuery := mkTopQuery {
  q_limit : Q;
  q_type : option string
}.

Record RangeQuery := mkRangeQuery {
  q_startDate : option Z;
  q_endDate : option Z
}.

(** A query filter on the collection. *)
Record Filter := mkFilter {
  f_userId : ObjectId;
  f_type : option string;
  f_gte : option Z;
  f_lte : option Z
}.

Definition matches (f : Filter) (d : Expense) : bool :=
  owned_by (f_userId f) d
  && match f_type f with
     | Some t => String.eqb (type_name (type d)) t
     | None => true
     end
  && match f_gte f, date d with
     | Some lo, Some t => (lo <=? t)%Z
     | Some _, None => false
     | None, _ => true
     end
  && match f_lte f, date d with
     | Some hi, Some t => (t <=? hi)%Z
     | Some _, None => false
     | None, _ => true
     end.

(** [.sort({ amount: -1 })]: by amount, largest first.  The store leaves
    the order of documents of equal amount open; here they keep their
    order. *)
Fixpoint insert_desc (d : Expense) (sorted : list Expense) : list Expense :=
  match sorted with
  | [] => [d]
  | x :: rest =>
      if Qle_bool (amount x) (amount d) then d :: sorted
      else x :: insert_desc d rest
  end.

Definition sort_amount_desc (ds : list Expense) : list Expense :=
  fold_right insert_desc [] ds.

(** [$group: { _id: '$type', total: { $sum: '$amount' }, count: { $sum: 1 },
    average: { $avg: '$amount' } }]: one accumulator per type met, in the
    order the types are met. *)
Record Acc := mkAcc { acc_type : ExpenseType; acc_sum : Q; acc_count : nat }.

Fixpoint accumulate (d : Expense) (accs : list Acc) : list Acc :=
  match accs with
  | [] => [mkAcc (type d) (0 + amount d) 1]
  | a :: accs' =>
      if ExpenseType_eqb (acc_type a) (type d)
      then mkAcc (acc_type a) (acc_sum a + amount d) (S (acc_count a)) :: accs'
      else a :: accumulate d accs'
  end.

Definition finish (a : Acc) : Group.t :=
  Group.mk (acc_type a) (acc_sum a) (acc_count a)
    (acc_sum a / inject_Z (Z.of_nat (acc_count a))).

Definition group_by_type (ds : list Expense) : list Group.t :=
  map finish (fold_left (fun accs d => accumulate d accs) ds []).

(** [summary.find(s => s._id === name)?.total || 0] *)
Definition total_of (name : ExpenseType) (summary : list Group.t) : Q :=
  match List.find (fun s => ExpenseType_eqb (Group._id s) name) summary with
  | Some s => if Qeq_bool (Group.total s) 0 then 0 else Group.total s
  | None => 0
  end.

(* ================================================================== *)
(** ** The listing and category queries *)
(* ================================================================== *)

(** The parsed data of the schema of [/date-range]. *)
Record DateRange := mkDateRange {
  r_startDate : Z;
  r_endDate : Z
}.

(** The order of dates in the store: [null] comes before every date. *)
Definition date_leb (a b : option Z) : bool :=
  match a, b with
  | None, _ => true
  | Some _, None => false
  | Some x, Some y => (x <=? y)%Z
  end.

(** [.sort({ date: -1 })]: by date, latest first, documents without a date
    last.  The store leaves the order of documents of equal date open; here
    they keep their order. *)
Fixpoint insert_date_desc (d : Expense) (sorted : list Expense) : list Expense :=
  match sorted with
  | [] => [d]
  | x :: rest =>
      if date_leb (date x) (date d) then d :: sorted
      else x :: insert_date_desc d rest
  end.

Definition sort_date_desc (ds : list Expense) : list Expense :=
  fold_right insert_date_desc [] ds.

(** One group of [/stats/categories]. *)
Module Category.
Record t := mk {
  _id : ExpenseType;
  count : nat;
  totalAmount : Q;
  avgAmount : Q;
  maxAmount : Q;
  minAmount : Q
}.
End Category.

(** [$max] and [$min] of two numbers. *)
Definition larger (a b : Q) : Q := if Qle_bool a b then b else a.

Definition smaller (a b : Q) : Q := if Qle_bool a b then a else b.

(** [$group: { _id: '$type', count: { $sum: 1 }, totalAmount: { $sum:
    '$amount' }, avgAmount: { $avg: '$amount' }, maxAmount: { $max:
    '$amount' }, minAmount: { $min: '$amount' } }]: one accumulator per type
    met, in the order the types are met. *)
Record CatAcc := mkCatAcc {
  cat_type : ExpenseType;
  cat_count : nat;
  cat_sum : Q;
  cat_max : Q;
  cat_min : Q
}.

Fixpoint accumulate_category (d : Expense) (accs : list CatAcc) : list CatAcc :=
  match accs with
  | [] => [mkCatAcc (type d) 1 (0 + amount d) (amount d) (amount d)]
  | a :: accs' =>
      if ExpenseType_eqb (cat_type a) (type d)
      then mkCatAcc (cat_type a) (S (cat_count a)) (cat_sum a + amount d)
             (larger (cat_max a) (amount d)) (smaller (cat_min a) (amount d))
           :: accs'
      else a :: accumulate_category d accs'
  end.

Definition finish_category (a : CatAcc) : Category.t :=
  Category.mk (cat_type a) (cat_count a) (cat_sum a)
    (cat_sum a / inject_Z (Z.of_nat (cat_count a))) (cat_max a) (cat_min a).

Definition group_categories (ds : list Expense) : list Category.t :=
  map finish_category (fold_left (fun accs d => accumulate_category d accs) ds []).

(** [{ $sort: { totalAmount: -1 } }]: by total, largest first; groups of
    equal total keep their order. *)
Fixpoint insert_total_desc (g : Category.t) (sorted : list Category.t)
  : list Category.t :=
  match sorted with
  | [] => [g]
  | x :: rest =>
      if Qle_bool (Category.totalAmount x) (Category.totalAmount g) then g :: sorted
      else x :: insert_total_desc g rest
  end.

Definition sort_total_desc (gs : list Category.t) : list Category.t :=
  fold_right insert_total_desc [] gs.

(** The JSON bodies of [/stats/categories]. *)
Inductive CategoriesBody :=
| CategoriesFailed (message : string) (error : Exception)
| Categories (categories : list Category.t).

Record CategoriesResponse := mkCategoriesResponse {
  categories_status : nat;
  categories_json : CategoriesBody
}.

(* ================================================================== *)
(** ** A concrete runtime, for running the handlers on examples *)
(* ================================================================== *)

Module Sample.

Definition digit (c : ascii) : option N :=
  let n := N_of_ascii c in
  if ((48 <=? n) && (n <=? 57))%N then Some (n - 48)%N else None.

Definition hex_digit (c : ascii) : option N :=
  let n := N_of_ascii c in
  if ((48 <=? n) && (n <=? 57))%N then Some (n - 48)%N
  else if ((97 <=? n) && (n <=? 102))%N then Some (n - 87)%N
  else if ((65 <=? n) && (n <=? 70))%N then Some (n - 55)%N
  else None.

Fixpoint numeral (base : N) (digit : ascii -> option N) (s : string) (acc : N) : option N :=
  match s with
  | EmptyString => Some acc
  | String c s' =>
      match digit c with
      | Some d => numeral base digit s' (acc * base + d)%N
      | None => None
      end
  end.

Fixpoint split_at_dot (s : string) : string * option string :=
  match s with
  | EmptyString => (EmptyString, None)
  | String c s' =>
      if Ascii.eqb c "."%char then (EmptyString, Some s')
      else let (whole, frac) := split_at_dot s' in (String c whole, frac)
  end.

(** Decimal numerals: digits, with an optional fraction. *)
Definition decimal_numeral (s : string) : option Q :=
  match split_at_dot s with
  | (EmptyString, _) => None
  | (whole, None) =>
      match numeral 10 digit whole 0 with
      | Some n => Some (inject_Z (Z.of_N n))
      | None => None
      end
  | (whole, Some frac) =>
      match numeral 10 digit whole 0, numeral 10 digit frac 0 with
      | Some n, Some f =>
          Some (inject_Z (Z.of_N n)
                + Qmake (Z.of_N f) (Pos.pow 10 (Pos.of_nat (String.length frac))))
      | _, _ => None
      end
  end.

(** [Number(v)]: numerals, [null] and booleans. *)
Definition ToNumber (v : Value) : option Q :=
  match v with
  | Str s => decimal_numeral s
  | Null => Some 0
  | Bool b => Some (if b then 1 else 0)
  | _ => None
  end.

(** The time value of a number: its whole part, within the range of dates. *)
Definition time_value (q : Q) : option Z :=
  let t := Z.quot (Qnum q) (Zpos (Qden q)) in
  if (Z.abs t <=? 8640000000000000)%Z then Some t else None.

(** [new Date(v)]: time values in milliseconds, [null] and booleans. *)
Definition ToDate (v : Value) : option Z :=
  match v with
  | Num q => time_value q
  | Null => Some 0%Z
  | Bool b => Some (if b then 1 else 0)%Z
  | _ => None
  end.

(** The date caster: time values in milliseconds; a boolean is refused. *)
Definition castDate (v : Value) : option Z :=
  match v with
  | Num q => time_value q
  | _ => None
  end.

(** The ObjectId caster: a string of 24 hexadecimal digits. *)
Definition castObjectId (v : Value) : option ObjectId :=
  match v with
  | Str s => if (String.length s =? 24)%nat then numeral 16 hex_digit s 0 else None
  | _ => None
  end.

(** A new ObjectId: one more than the largest in use. *)
Definition newObjectId (used : list ObjectId) : ObjectId :=
  N.succ (fold_right N.max 0%N used).

(** A limit that is not whole is cut to its whole part; zero is no limit. *)
Definition limit_fraction (q : Q) (ds : list Expense) : Outcome (list Expense) :=
  match Z.to_nat (Qfloor q) with
  | O => Done ds
  | n => Done (firstn n ds)
  end.

(** Thirty days before, on a calendar without clock changes. *)
Definition thirtyDaysBefore (t : Z) : Z := (t - 30 * 86400000)%Z.

(** Users and ids. *)
Definition alice : ObjectId := 161%N.
Definition bob : ObjectId := 177%N.

Definition id_A : string := "00000000000000000000000a".
Definition id_B : string := "00000000000000000000000b".
Definition id_C : string := "00000000000000000000000c".
Definition id_bob : string := "0000000000000000000000b1".

Definition rent : Expense :=
  mkExpense 10%N "Rent" "Flat" 1000 (Some 1700000000000%Z) T_expense (Some alice).

Definition salary : Expense :=
  mkExpense 11%N "Salary" "May" 3000 (Some 1700000100000%Z) T_income (Some bob).

(** [rent] (id A) is Alice's, [salary] (id B) is Bob's, no document has
    id C. *)
Definition store : Store := [rent; salary].

Definition carol : ObjectId := 193%N.

(** Carol's ledger: an income of 100 and an expense of 40. *)
Definition ledger : Store :=
  [mkExpense 20%N "Pay" "June" 100 (Some 1700000200000%Z) T_income (Some carol);
   mkExpense 21%N "Food" "June" 40 (Some 1700000300000%Z) T_expense (Some carol)].

(** Three expenses of Carol's, of amounts 5, 50 and 500. *)
Definition three : Store :=
  [mkExpense 31%N "Tea" "Shop" 5 (Some 1700000400000%Z) T_expense (Some carol);
   mkExpense 32%N "Book" "Shop" 50 (Some 1700000500000%Z) T_expense (Some carol);
   mkExpense 33%N "Bike" "Shop" 500 (Some 1700000600000%Z) T_expense (Some carol)].

(** Request bodies: both creations name Bob as [userId]. *)
Definition new_rent : Value :=
  Obj [("title", Str "Rent"); ("description", Str "Flat"); ("amount", Num 1000);
       ("date", Num 1700000000000); ("type", Str "expense"); ("userId", Str id_bob)].


Definition free_rent : Value :=
  Obj [("title", Str "Rent"); ("description", Str "Flat"); ("amount", Num 0);
       ("date", Num 1700000000000); ("type", Str "expense")].

Definition transfer : Value :=
  Obj [("title", Str "Rent"); ("description", Str "Flat"); ("amount", Num 1000);
       ("date", Num 1700000000000); ("type", Str "transfer")].

(** Days from 1970-01-01 to a date of the proleptic Gregorian calendar. *)
Definition days_from_civil (y m d : Z) : Z :=
  let y' := if (m <=? 2)%Z then (y - 1)%Z else y in
  let era := (y' / 400)%Z in
  let yoe := (y' - era * 400)%Z in
  let mp := ((m + 9) mod 12)%Z in
  let doy := ((153 * mp + 2) / 5 + d - 1)%Z in
  let doe := (yoe * 365 + yoe / 4 - yoe / 100 + doy)%Z in
  (era * 146097 + doe - 719468)%Z.

Definition days_in_month (y m : Z) : Z :=
  if (m =? 2)%Z then
    if ((y mod 4 =? 0) && (negb (y mod 100 =? 0) || (y mod 400 =? 0)))%Z
    then 29%Z else 28%Z
  else if ((m =? 4) || (m =? 6) || (m =? 9) || (m =? 11))%Z then 30%Z
  else 31%Z.

(** The date-only form [YYYY-MM-DD] of a date that exists: midnight UTC. *)
Definition civil_date (s : string) : option Z :=
  match s with
  | String y1 (String y2 (String y3 (String y4 (String "-"
      (String m1 (String m2 (String "-" (String d1 (String d2 EmptyString))))))))) =>
      match numeral 10 digit (String y1 (String y2 (String y3 (String y4 EmptyString)))) 0,
            numeral 10 digit (String m1 (String m2 EmptyString)) 0,
            numeral 10 digit (String d1 (String d2 EmptyString)) 0 with
      | Some y, Some m, Some d =>
          let y := Z.of_N y in
          let m := Z.of_N m in
          let d := Z.of_N d in
          if ((1 <=? m) && (m <=? 12) && (1 <=? d) && (d <=? days_in_month y m))%Z
          then Some (days_from_civil y m d * 86400000)%Z
          else None
      | _, _, _ => None
      end
  | _ => None
  end.

(** [new Date(v)] for the values of a query string: date-only strings. *)
Definition ToDate_query (v : Value) : option Z :=
  match v with
  | Str s => civil_date s
  | _ => ToDate v
  end.

(** Carol's diary: expenses of 1 October, 10 November and 20 November 2023
    and an income without a date. *)
Definition coffee : Expense :=
  mkExpense 41%N "Coffee" "Bar" 3 (Some 1696118400000%Z) T_expense (Some carol).

Definition train : Expense :=
  mkExpense 42%N "Train" "Trip" 60 (Some 1699574400000%Z) T_expense (Some carol).

Definition gift : Expense :=
  mkExpense 43%N "Gift" "Aunt" 20 None T_income (Some carol).

Definition hotel : Expense :=
  mkExpense 44%N "Hotel" "Trip" 120 (Some 1700438400000%Z) T_expense (Some carol).

Definition diary : Store := [coffee; train; gift; hotel].

(** An update of the amount alone. *)
Definition cheaper : Value := Obj [("amount", Num 900)].

(** The records the store holds for [new_rent] and [new_pay] once Alice
    has added them to [store]. *)
Definition rent_C : Expense :=
  mkExpense 12%N "Rent" "Flat" 1000 (Some 1700000000000%Z) T_expense (Some alice).




End Sample.

(* ================================================================== *)
(** ** The router *)
(* ================================================================== *)

Section Router.

Set Default Proof Using "Type".

(** *** What the runtime and the driver compute *)

(** [Number(v)] for a value that is not already a number. *)
Variable ToNumber : Value -> option Q.

(** The time value of [new Date(v)] for a value that is not already a date;
    [None] is an invalid date. *)
Variable ToDate : Value -> option Z.

(** The date caster of mongoose on a value that is neither [null], the
    empty string nor a date; [None] is a cast error. *)
Variable castDate : Value -> option Z.

(** The ObjectId caster of mongoose on a value that is not already an
    ObjectId; [None] is a cast error. *)
Variable castObjectId : Value -> option ObjectId.

(** The ObjectId the driver generates for a new document, given the ids in
    use: it is not one of them. *)
Variable newObjectId : list ObjectId -> ObjectId.
Hypothesis newObjectId_fresh : forall used, ~ In (newObjectId used) used.

(** What the store does with a [limit] that is not a whole number. *)
Variable limit_fraction : Q -> list Expense -> Outcome (list Expense).

(** The time value of a date after [d.setDate(d.getDate() - 30)], given its
    time value before: thirty days back on the local calendar. *)
Variable thirtyDaysBefore : Z -> Z.

Definition Number (v : Value) : option Q :=
  match v with
  | Num q => Some q
  | _ => ToNumber v
  end.

Definition newDate (v : Value) : option Z :=
  match v with
  | Date t => Some t
  | _ => ToDate v
  end.

(** *** The model [expenseModel]: casting to [ExpenseSchema]

    Scope: [title], [description], [amount] and [type] are cast from the
    JavaScript type the handlers pass after validation (a string, a number);
    a value of another type, which mongoose would convert or store as
    [null], has no counterpart in [Expense] and is reported as a cast error.
    The handlers never pass one (see [validated_document]). *)

Definition cast_String (path : string) (v : Value) : Outcome string :=
  match v with
  | Str s => Done s
  | _ => Thrown (CastError path)
  end.

Definition cast_Number (path : string) (v : Value) : Outcome Q :=
  match v with
  | Num q => Done q
  | _ => Thrown (CastError path)
  end.

Definition cast_Date (path : string) (v : Value) : Outcome (option Z) :=
  match v with
  | Null => Done None
  | Date t => Done (Some t)
  | Str "" => Done None
  | _ =>
      match castDate v with
      | Some t => Done (Some t)
      | None => Thrown (CastError path)
      end
  end.

Definition cast_ObjectId (path : string) (v : Value) : Outcome ObjectId :=
  match v with
  | Oid o => Done o
  | _ =>
      match castObjectId v with
      | Some o => Done o
      | None => Thrown (CastError path)
      end
  end.

(** [enum: ['income', 'expense']] *)
Definition cast_type (path : string) (v : Value) : Outcome ExpenseType :=
  match v with
  | Str s =>
      match type_of_name s with
      | Some t => Done t
      | None => Thrown (ValidatorError path)
      end
  | _ => Thrown (CastError path)
  end.

(** A path that every document of the data model has. *)
Definition present {A} (path : string) (cast : string -> Value -> Outcome A)
  (v : option Value) : Outcome A :=
  match v with
  | Some x => cast path x
  | None => Thrown (ValidatorError path)
  end.

(** [required: true]: neither absent nor [null]. *)
Definition required {A} (path : string) (cast : string -> Value -> Outcome A)
  (v : option Value) : Outcome A :=
  match v with
  | Some Null | None => Thrown (ValidatorError path)
  | Some x => cast path x
  end.

(** [new expenseModel(o)] and its validation: the paths of the schema are
    read from [o], anything else in [o] is dropped; a document without an
    [_id] gets a new one. *)
Definition document (used : list ObjectId) (o : Object) : Outcome Expense :=
  id <~ match lookup "_id" o with
        | Some v => cast_ObjectId "_id" v
        | None => Done (newObjectId used)
        end ;;
  title <~ present "title" cast_String (lookup "title" o) ;;
  description <~ present "description" cast_String (lookup "description" o) ;;
  amount <~ present "amount" cast_Number (lookup "amount" o) ;;
  date <~ match lookup "date" o with
          | Some v => cast_Date "date" v
          | None => Done None
          end ;;
  type <~ required "type" cast_type (lookup "type" o) ;;
  userId <~ required "userId" cast_ObjectId (lookup "userId" o) ;;
  Done (mkExpense id title description amount date type (Some userId)).

Definition has_id (s : Store) (id : ObjectId) : bool :=
  existsb (N.eqb id) (ids s).

(** The insertion of one document: [_id] is the unique key. *)
Definition insertOne (d : Expense) : DB Expense :=
  fun s =>
    if has_id s (_id d) then (Thrown (DuplicateKey (_id d)), s)
    else (Done d, s ++ [d]).

(** [expenseModel.create(o)] *)
Definition expenseModel_create (o : Object) : DB Expense :=
  fun s =>
    match document (ids s) o with
    | Done d => insertOne d s
    | Thrown e => (Thrown e, s)
    end.

Fixpoint documents (used : list ObjectId) (os : list Object) : Outcome (list Expense) :=
  match os with
  | [] => Done []
  | o :: os' =>
      d <~ document used o ;;
      ds <~ documents (_id d :: used) os' ;;
      Done (d :: ds)
  end.

(** An ordered insertion stops at the first document that fails; the ones
    before it stay inserted. *)
Fixpoint insert_ordered (ds : list Expense) : DB unit :=
  match ds with
  | [] => ret tt
  | d :: ds' => _ <- insertOne d ;; insert_ordered ds'
  end.

(** [expenseModel.insertMany(os)]: every document is built and validated
    before the first one is sent. *)
Definition expenseModel_insertMany (os : list Object) : DB (list Expense) :=
  fun s =>
    match documents (ids s) os with
    | Done ds => (_ <- insert_ordered ds ;; ret ds) s
    | Thrown e => (Thrown e, s)
    end.

(** The filter [{ _id: id, userId: caller }]. *)
Definition by_id_and_owner (id caller : ObjectId) (d : Expense) : bool :=
  N.eqb (_id d) id && owned_by caller d.

(** [expenseModel.findOne({ _id: id, userId: caller })] *)
Definition expenseModel_findOne (id : Value) (caller : ObjectId) : DB (option Expense) :=
  oid <- lift (cast_ObjectId "_id" id) ;;
  fun s => (Done (List.find (by_id_and_owner oid caller) s), s).

Fixpoint remove_first (f : Expense -> bool) (s : Store) : Store :=
  match s with
  | [] => []
  | d :: s' => if f d then s' else d :: remove_first f s'
  end.

(** [expenseModel.findOneAndDelete({ _id: id, userId: caller })] *)
Definition expenseModel_findOneAndDelete (id : Value) (caller : ObjectId)
  : DB (option Expense) :=
  oid <- lift (cast_ObjectId "_id" id) ;;
  fun s =>
    (Done (List.find (by_id_and_owner oid caller) s),
     remove_first (by_id_and_owner oid caller) s).

(** [expenseModel.deleteMany({ _id: { $in: ids }, userId: caller })] *)
Definition in_ids_and_owner (oids : list ObjectId) (caller : ObjectId) (d : Expense) : bool :=
  existsb (N.eqb (_id d)) oids && owned_by caller d.

Definition expenseModel_deleteMany (ids : list Value) (caller : ObjectId) : DB nat :=
  oids <- lift (mapO (cast_ObjectId "_id") ids) ;;
  fun s =>
    (Done (length (filter (in_ids_and_owner oids caller) s)),
     filter (fun d => negb (in_ids_and_owner oids caller d)) s).

(** The update document of [findOneAndUpdate], cast to the schema: the
    paths of the schema that occur at the top level of the object; any
    other key is dropped.  Scope: update operators (keys that start with
    [$]) and the version key are not interpreted. *)
Record Update := mkUpdate {
  set__id : option ObjectId;
  set_title : option string;
  set_description : option string;
  set_amount : option Q;
  set_date : option (option Z);
  set_type : option ExpenseType;
  set_userId : option (option ObjectId)
}.

Definition cast_if_set {A} (path : string) (cast : string -> Value -> Outcome A)
  (v : option Value) : Outcome (option A) :=
  match v with
  | Some x => a <~ cast path x ;; Done (Some a)
  | None => Done None
  end.

Definition cast_nullable_ObjectId (path : string) (v : Value) : Outcome (option ObjectId) :=
  match v with
  | Null => Done None
  | _ => o <~ cast_ObjectId path v ;; Done (Some o)
  end.

Definition castUpdate (update : Value) : Outcome Update :=
  match update with
  | Obj o =>
      id <~ cast_if_set "_id" cast_ObjectId (lookup "_id" o) ;;
      title <~ cast_if_set "title" cast_String (lookup "title" o) ;;
      description <~ cast_if_set "description" cast_String (lookup "description" o) ;;
      amount <~ cast_if_set "amount" cast_Number (lookup "amount" o) ;;
      date <~ cast_if_set "date" cast_Date (lookup "date" o) ;;
      type <~ cast_if_set "type" cast_type (lookup "type" o) ;;
      userId <~ cast_if_set "userId" cast_nullable_ObjectId (lookup "userId" o) ;;
      Done (mkUpdate id title description amount date type userId)
  | _ => Thrown (BadValue "update")
  end.

Definition or_keep {A} (new : option A) (old : A) : A :=
  match new with
  | Some x => x
  | None => old
  end.

(** The write of the cast update on the matched document; [_id] cannot
    change. *)
Definition apply_update (u : Update) (d : Expense) : Outcome Expense :=
  if N.eqb (or_keep (set__id u) (_id d)) (_id d)
  then Done (mkExpense (_id d)
               (or_keep (set_title u) (title d))
               (or_keep (set_description u) (description d))
               (or_keep (set_amount u) (amount d))
               (or_keep (set_date u) (date d))
               (or_keep (set_type u) (type d))
               (or_keep (set_userId u) (userId d)))
  else Thrown (ImmutableField "_id").

Fixpoint replace_first (f : Expense -> bool) (d' : Expense) (s : Store) : Store :=
  match s with
  | [] => []
  | d :: s' => if f d then d' :: s' else d :: replace_first f d' s'
  end.

(** [expenseModel.findOneAndUpdate({ _id: id, userId: caller }, update,
    { new: true })] *)
Definition expenseModel_findOneAndUpdate (id : Value) (caller : ObjectId) (update : Value)
  : DB (option Expense) :=
  oid <- lift (cast_ObjectId "_id" id) ;;
  u <- lift (castUpdate update) ;;
  fun s =>
    match List.find (by_id_and_owner oid caller) s with
    | None => (Done None, s)
    | Some d =>
        match apply_update u d with
        | Done d' => (Done (Some d'), replace_first (by_id_and_owner oid caller) d' s)
        | Thrown e => (Thrown e, s)
        end
    end.

(** [.limit(n)]: the first [n] documents for a whole number [n]; what the
    store does with a limit that is not whole is [limit_fraction]. *)
Definition is_whole (q : Q) : bool := Qeq_bool q (inject_Z (Qfloor q)).

Definition limit_to (n : Q) (ds : list Expense) : Outcome (list Expense) :=
  if is_whole n then Done (firstn (Z.to_nat (Qfloor n)) ds)
  else limit_fraction n ds.

(** [expenseModel.find(filter).sort({ amount: -1 }).limit(n)] *)
Definition expenseModel_find_sort_limit (f : Filter) (n : Q) : DB (list Expense) :=
  fun s => (limit_to n (sort_amount_desc (filter (matches f) s)), s).

(** [expenseModel.aggregate([{ $match: filter }, { $group: ... }])] *)
Definition expenseModel_aggregate (f : Filter) : DB (list Group.t) :=
  fun s => (Done (group_by_type (filter (matches f) s)), s).

(** *** The schemas of the handlers *)

(** The object schema of [/add], also the element schema of [/add/bulk]. *)
Definition expenseShape (p : list PathSeg) (o : Value) : SafeParse ExpenseInput :=
  Success mkExpenseInput
    <*> field "title" (string_min 1) p o
    <*> field "description" (string_min 1) p o
    <*> field "amount" (number [Positive]) p o
    <*> field "date" (coerce_date newDate) p o
    <*> field "type" (enum ["income"; "expense"]) p o.

Definition add_requireBody : ZodType ExpenseInput :=
  object expenseShape.

Definition bulk_requireBody : ZodType (list ExpenseInput) :=
  object (fun p o =>
    Success (fun expenses => expenses)
      <*> field "expenses" (array (object expenseShape) 1 100) p o).

Definition top_querySchema : ZodType TopQuery :=
  object (fun p o =>
    Success mkTopQuery
      <*> field "limit" (default (coerce_number Number [Positive; Max 50]) (Num 10)) p o
      <*> field "type" (optional (enum ["income"; "expense"])) p o).

Definition delete_requireBody : ZodType (list string) :=
  object (fun p o =>
    Success (fun expenseIds => expenseIds)
      <*> field "expenseIds" (array (string_min 0) 1 100) p o).

Definition update_requireBody : ZodType ExpenseUpdate :=
  object (fun p o =>
    Success mkExpenseUpdate
      <*> field "title" (optional (string_min 1)) p o
      <*> field "description" (optional (string_min 1)) p o
      <*> field "amount" (optional (number [Positive])) p o
      <*> field "date" (optional (coerce_date newDate)) p o
      <*> field "type" (optional (enum ["income"; "expense"])) p o).

Definition summary_querySchema : ZodType RangeQuery :=
  object (fun p o =>
    Success mkRangeQuery
      <*> field "startDate" (optional (coerce_date newDate)) p o
      <*> field "endDate" (optional (coerce_date newDate)) p o).

(** *** The handlers

    [caller] is [req.user._id], the ObjectId the guard attached to the
    request; [body] is [req.body], [query] is [req.query], [id] is
    [req.params.id] and [now] is the clock reading of [new Date()]. *)

(** [expenseRouter.post('/add', ...)] *)
Definition post_add (caller : ObjectId) (body : Value) : Handler :=
  let parsedata := safeParse add_requireBody body in
  if negb (success parsedata) then
    respond 400 (Invalid "Invalid data" (issues parsedata))
  else
    let title := prop body "title" in
    let description := prop body "description" in
    let amount := prop body "amount" in
    let date := prop body "date" in
    let type := prop body "type" in
    try_catch
      (expense <- expenseModel_create
                    (binding "title" title ++
                     binding "description" description ++
                     binding "amount" amount ++
                     binding "date" date ++
                     binding "type" type ++
                     [("userId", Oid caller)]) ;;
       ret (mkResponse 201 (OneExpense "Expense added successfully" expense)))
      (fun error => mkResponse 500 (Failed "Error adding expense" error)).

(** [{ ...expense, userId: caller }] *)
Definition withUserId (caller : ObjectId) (expense : Value) : Object :=
  match expense with
  | Obj o => assign o "userId" (Oid caller)
  | _ => [("userId", Oid caller)]
  end.

(** [expenseRouter.post('/add/bulk', ...)] *)
Definition post_add_bulk (caller : ObjectId) (body : Value) : Handler :=
  let parsedata := safeParse bulk_requireBody body in
  if negb (success parsedata) then
    respond 400 (Invalid "Invalid data" (issues parsedata))
  else
    let expenses := prop body "expenses" in
    try_catch
      (match expenses with
       | Some (Arr expenses) =>
           let expensesWithUserId := map (withUserId caller) expenses in
           createdExpenses <- expenseModel_insertMany expensesWithUserId ;;
           ret (mkResponse 201
                  (ManyExpenses
                     (decimal (length createdExpenses) ++ " expenses added successfully")
                     createdExpenses))
       | _ => throw (TypeError "expenses.map is not a function")
       end)
      (fun error => mkResponse 500 (Failed "Error adding expenses" error)).

(** [expenseRouter.get('/top', ...)] *)
Definition get_top (caller : ObjectId) (query : Value) : Handler :=
  let parseQuery := safeParse top_querySchema query in
  match parseQuery with
  | Failure error => respond 400 (Invalid "Invalid query parameters" error)
  | Success data =>
      let limit := q_limit data in
      let type := q_type data in
      try_catch
        (let filter := mkFilter caller None None None in
         let filter :=
           match type with
           | Some t => if String.eqb t "" then filter
                       else mkFilter caller (Some t) None None
           | None => filter
           end in
         expenses <- expenseModel_find_sort_limit filter limit ;;
         ret (mkResponse 200 (Expenses expenses)))
        (fun error => mkResponse 500 (Failed "Error fetching top expenses" error))
  end.

(** [expenseRouter.post('/duplicate/:id', ...)] *)
Definition post_duplicate (caller : ObjectId) (id : string) (now : Z) : Handler :=
  try_catch
    (originalExpense <- expenseModel_findOne (Str id) caller ;;
     match originalExpense with
     | None => ret (mkResponse 404 (Message "Expense not found"))
     | Some originalExpense =>
         duplicateExpense <- expenseModel_create
           [("title", Str (title originalExpense ++ " (Copy)"));
            ("description", Str (description originalExpense));
            ("amount", Num (amount originalExpense));
            ("date", Date now);
            ("type", Str (type_name (type originalExpense)));
            ("userId", Oid caller)] ;;
         ret (mkResponse 201 (OneExpense "Expense duplicated successfully" duplicateExpense))
     end)
    (fun error => mkResponse 500 (Failed "Error duplicating expense" error)).

(** [expenseRouter.delete('/bulk', ...)] *)
Definition delete_bulk (caller : ObjectId) (body : Value) : Handler :=
  let parsedata := safeParse delete_requireBody body in
  if negb (success parsedata) then
    respond 400 (Invalid "Invalid data" (issues parsedata))
  else
    let expenseIds := prop body "expenseIds" in
    try_catch
      (match expenseIds with
       | Some (Arr expenseIds) =>
           deletedCount <- expenseModel_deleteMany expenseIds caller ;;
           ret (mkResponse 200
                  (DeletedMany (decimal deletedCount ++ " expenses deleted successfully")
                     deletedCount))
       | _ => throw (BadValue "$in needs an array")
       end)
      (fun error => mkResponse 500 (Failed "Error deleting expenses" error)).

(** [expenseRouter.get('/:id', ...)] *)
Definition get_by_id (caller : ObjectId) (id : string) : Handler :=
  try_catch
    (expense <- expenseModel_findOne (Str id) caller ;;
     match expense with
     | None => ret (mkResponse 404 (Message "Expense not found"))
     | Some expense => ret (mkResponse 200 (FoundExpense expense))
     end)
    (fun error => mkResponse 500 (Failed "Error fetching expense" error)).

(** [expenseRouter.put('/:id', ...)] *)
Definition put_by_id (caller : ObjectId) (id : string) (body : Value) : Handler :=
  let parsedata := safeParse update_requireBody body in
  if negb (success parsedata) then
    respond 400 (Invalid "Invalid data" (issues parsedata))
  else
    try_catch
      (expense <- expenseModel_findOneAndUpdate (Str id) caller body ;;
       match expense with
       | None => ret (mkResponse 404 (Message "Expense not found"))
       | Some expense => ret (mkResponse 200 (OneExpense "Expense updated successfully" expense))
       end)
      (fun error => mkResponse 500 (Failed "Error updating expense" error)).

(** [expenseRouter.delete('/:id', ...)] *)
Definition delete_by_id (caller : ObjectId) (id : string) : Handler :=
  try_catch
    (expense <- expenseModel_findOneAndDelete (Str id) caller ;;
     match expense with
     | None => ret (mkResponse 404 (Message "Expense not found"))
     | Some _ => ret (mkResponse 200 (Message "Expense deleted successfully"))
     end)
    (fun error => mkResponse 500 (Failed "Error deleting expense" error)).

(** [expenseRouter.get('/stats/summary', ...)] *)
Definition get_stats_summary (caller : ObjectId) (query : Value) : Handler :=
  let parseQuery := safeParse summary_querySchema query in
  match parseQuery with
  | Failure error => respond 400 (Invalid "Invalid query parameters" error)
  | Success data =>
      let startDate := q_startDate data in
      let endDate := q_endDate data in
      try_catch
        (let filter := mkFilter caller None None None in
         let filter :=
           match startDate, endDate with
           | None, None => filter
           | _, _ => mkFilter caller None startDate endDate
           end in
         summary <- expenseModel_aggregate filter ;;
         let totalIncome := total_of T_income summary in
         let totalExpenses := total_of T_expense summary in
         let balance := totalIncome - totalExpenses in
         ret (mkResponse 200 (Summary totalIncome totalExpenses balance summary)))
        (fun error => mkResponse 500 (Failed "Error fetching summary" error))
  end.

(** *** The listing and category handlers *)

(** [expenseModel.find(filter).sort({ date: -1 })] *)
Definition expenseModel_find_sort_date (f : Filter) : DB (list Expense) :=
  fun s => (Done (sort_date_desc (filter (matches f) s)), s).

(** [expenseModel.aggregate([{ $match: { userId: caller } }, { $group: ... },
    { $sort: { totalAmount: -1 } }])] *)
Definition expenseModel_aggregate_categories (caller : ObjectId)
  : DB (list Category.t) :=
  fun s =>
    (Done (sort_total_desc
             (group_categories (filter (matches (mkFilter caller None None None)) s))),
     s).

Definition range_querySchema : ZodType DateRange :=
  object (fun p o =>
    Success mkDateRange
      <*> field "startDate" (coerce_date newDate) p o
      <*> field "endDate" (coerce_date newDate) p o).

(** [expenseRouter.get('/recent', ...)] *)
Definition get_recent (caller : ObjectId) (now : Z) : Handler :=
  try_catch
    (let thirtyDaysAgo := thirtyDaysBefore now in
     expenses <- expenseModel_find_sort_date
                   (mkFilter caller None (Some thirtyDaysAgo) None) ;;
     ret (mkResponse 200 (Expenses expenses)))
    (fun error => mkResponse 500 (Failed "Error fetching recent expenses" error)).

(** [expenseRouter.get('/date-range', ...)] *)
Definition get_date_range (caller : ObjectId) (query : Value) : Handler :=
  let parseQuery := safeParse range_querySchema query in
  match parseQuery with
  | Failure error => respond 400 (Invalid "Invalid date range" error)
  | Success data =>
      let startDate := r_startDate data in
      let endDate := r_endDate data in
      try_catch
        (expenses <- expenseModel_find_sort_date
                       (mkFilter caller None (Some startDate) (Some endDate)) ;;
         ret (mkResponse 200 (Expenses expenses)))
        (fun error =>
           mkResponse 500 (Failed "Error fetching expenses by date range" error))
  end.

(** [expenseRouter.get('/all', ...)] *)
Definition get_all (caller : ObjectId) : Handler :=
  try_catch
    (expenses <- expenseModel_find_sort_date (mkFilter caller None None None) ;;
     ret (mkResponse 200 (Expenses expenses)))
    (fun error => mkResponse 500 (Failed "Error fetching expenses" error)).

(** [expenseRouter.get('/stats/categories', ...)] *)
Definition get_stats_categories (caller : ObjectId)
  : Store -> CategoriesResponse * Store :=
  try_catch
    (categories <- expenseModel_aggregate_categories caller ;;
     ret (mkCategoriesResponse 200 (Categories categories)))
    (fun error =>
       mkCategoriesResponse 500 (CategoriesFailed "Error fetching category stats" error)).

(* ================================================================== *)
(** ** The vocabulary of the properties *)
(* ================================================================== *)

(** The fields of a value that passes the expense schema. *)
Record Validated (o : Object) (t d : string) (a : Q) (v : Value) (ty : ExpenseType) : Prop := {
  v_title : lookup "title" o = Some (Str t);
  v_description : lookup "description" o = Some (Str d);
  v_amount : lookup "amount" o = Some (Num a);
  v_positive : 0 < a;
  v_date : lookup "date" o = Some v;
  v_valid_date : exists ms, newDate v = Some ms;
  v_type : lookup "type" o = Some (Str (type_name ty))
}.

(** The record [/add] writes for a validated body, once the store has cast
    the date. *)
Definition added (caller : ObjectId) (s : Store) (t d : string) (a : Q)
  (dt : option Z) (ty : ExpenseType) : Expense :=
  mkExpense (newObjectId (ids s)) t d a dt ty (Some caller).

(** Inversion of a chain of casts that ended well. *)
Ltac invert_casts H :=
  repeat match type of H with
         | bindO ?m _ = Done _ =>
             let E := fresh "E" in
             destruct m eqn:E; simpl in H; [|discriminate H]
         end.



(** A payload with [amount <= 0]. *)
Definition bad_amount (x : Value) : Prop :=
  exists q, prop x "amount" = Some (Num q) /\ q <= 0.

(** A payload with a [type] value other than ['income'] and ['expense']. *)
Definition bad_type (x : Value) : Prop :=
  exists v, prop x "type" = Some v /\ v <> Str "income" /\ v <> Str "expense".

(** The error detail has an issue at the given path. *)
Definition issue_at (p : list PathSeg) (error : list ZodIssue) : Prop :=
  exists c, In (mkIssue c p) error.

(** [{ message: "Expense not found" }] with status 404. *)
Definition not_found : Response :=
  mkResponse 404 (Message "Expense not found").

(** No document has this id. *)
Definition absent (id : ObjectId) (s : Store) : Prop :=
  ~ In id (ids s).

(** The document with this id belongs to someone else (ids are unique in
    a collection). *)
Definition owned_by_other (caller id : ObjectId) (s : Store) : Prop :=
  NoDup (ids s) /\ exists d, In d s /\ _id d = id /\ userId d <> Some caller.

(** The sum of the amounts of a list of documents. *)
Definition sum_amounts (ds : list Expense) : Q :=
  fold_right (fun d acc => amount d + acc) 0 ds.


(** The date lies in the range, each bound being optional; a document
    without a date lies in no bounded range. *)
Definition in_range (lo hi : option Z) (t : option Z) : Prop :=
  (forall l, lo = Some l -> exists x, t = Some x /\ (l <= x)%Z)
  /\ (forall h, hi = Some h -> exists x, t = Some x /\ (x <= h)%Z).

(** The documents of the caller in the date range. *)
Definition summary_filter (caller : ObjectId) (data : RangeQuery) : Filter :=
  mkFilter caller None (q_startDate data) (q_endDate data).




(** The accumulators after a run over the documents. *)
Definition run_group (ds : list Expense) (accs : list Acc) : list Acc :=
  fold_left (fun accs d => accumulate d accs) ds accs.

(** The filter of [/top]: the caller's documents, of one type when the
    query names one. *)
Definition top_filter (caller : ObjectId) (ty : option ExpenseType) : Filter :=
  mkFilter caller (option_map type_name ty) None None.

(** The query names the type [ty], or none. *)
Definition type_param (query : Value) (ty : option ExpenseType) : Prop :=
  prop query "type" = option_map (fun t => Str (type_name t)) ty.

(** The [n] largest of the caller's documents, largest first. *)
Definition top_n (caller : ObjectId) (ty : option ExpenseType) (n : nat) (s : Store)
  : list Expense :=
  firstn n (sort_amount_desc (filter (matches (top_filter caller ty)) s)).

(** Largest amount first. *)
Definition descending (l : list Expense) : Prop :=
  StronglySorted (fun x y => amount y <= amount x) l.

(** The six handlers that write to the collection, by route; [now] is
    only read by the duplication. *)
Inductive Mutation :=
| Add (body : Value)
| AddBulk (body : Value)
| Duplicate (id : string) (now : Z)
| DeleteBulk (body : Value)
| Put (id : string) (body : Value)
| Delete (id : string).

Definition run_write (caller : ObjectId) (w : Mutation) : Handler :=
  match w with
  | Add body => post_add caller body
  | AddBulk body => post_add_bulk caller body
  | Duplicate id now => post_duplicate caller id now
  | DeleteBulk body => delete_bulk caller body
  | Put id body => put_by_id caller id body
  | Delete id => delete_by_id caller id
  end.




(** The stored record carries the fields of the payload it was created
    from: the strings, the amount and the type as sent, and the date as the
    store casts the one sent. *)
Definition carries (x : Value) (e : Expense) : Prop :=
  prop x "title" = Some (Str (title e))
  /\ prop x "description" = Some (Str (description e))
  /\ prop x "amount" = Some (Num (amount e))
  /\ prop x "type" = Some (Str (type_name (type e)))
  /\ exists v, prop x "date" = Some v /\ cast_Date "date" v = Done (date e).



(** The documents counted by a breakdown, and the sum of its totals. *)
Definition counted (breakdown : list Group.t) : nat :=
  fold_right (fun g n => (Group.count g + n)%nat) 0%nat breakdown.

Definition totalled (breakdown : list Group.t) : Q :=
  fold_right (fun g q => Group.total g + q) 0 breakdown.

(** Latest date first, documents without a date last. *)
Definition latest_first (l : list Expense) : Prop :=
  StronglySorted (fun x y => date_leb (date y) (date x) = true) l.

(** The filters of the listing handlers. *)
Definition all_filter (caller : ObjectId) : Filter :=
  mkFilter caller None None None.

Definition range_filter (caller : ObjectId) (lo hi : Z) : Filter :=
  mkFilter caller None (Some lo) (Some hi).

Definition recent_filter (caller : ObjectId) (now : Z) : Filter :=
  mkFilter caller None (Some (thirtyDaysBefore now)) None.

(** The list a [find] with [.sort({ date: -1 })] returns. *)
Definition listed (f : Filter) (s : Store) : list Expense :=
  sort_date_desc (filter (matches f) s).

(** A category read as a group of the summary: its type, total, count and
    average. *)
Definition as_group (c : Category.t) : Group.t :=
  Group.mk (Category._id c) (Category.totalAmount c) (Category.count c)
    (Category.avgAmount c).

Definition forget (a : CatAcc) : Acc :=
  mkAcc (cat_type a) (cat_sum a) (cat_count a).






Definition run_categories (ds : list Expense) (accs : list CatAcc) : list CatAcc :=
  fold_left (fun accs d => accumulate_category d accs) ds accs.

(* ================================================================== *)
(** ** Validation: what a successful parse tells about the raw value *)
(* ================================================================== *)

Lemma success_ap {A B} (f : SafeParse (A -> B)) (x : SafeParse A) :
  success (f <*> x) = success f && success x.
Proof. destruct f, x; reflexivity. Qed.

Lemma issues_ap {A B} (f : SafeParse (A -> B)) (x : SafeParse A) :
  issues (f <*> x) = issues f ++ issues x.
Proof. destruct f, x; simpl; auto using app_nil_r. Qed.

Lemma success_fmap {A B} (f : A -> B) (x : SafeParse A) :
  success (fmap f x) = success x.
Proof. destruct x; reflexivity. Qed.

Lemma success_object {A} (shape : list PathSeg -> Value -> SafeParse A) p v :
  success (object shape p v) = true ->
  exists o, v = Some (Obj o) /\ success (shape p (Obj o)) = true.
Proof.
  destruct v as [[| | | | |o| |]|]; simpl; try discriminate.
  intros H; exists o; auto.
Qed.

Lemma success_string_min n p v :
  success (string_min n p v) = true ->
  exists s, v = Some (Str s) /\ (n <= String.length s)%nat.
Proof.
  destruct v as [[| | |s| | | |]|]; simpl; try discriminate.
  destruct (Nat.leb_spec n (String.length s)); try discriminate.
  intros _; exists s; auto.
Qed.

Lemma success_positive p v :
  success (number [Positive] p v) = true ->
  exists q, v = Some (Num q) /\ 0 < q.
Proof.
  destruct v as [[| |q| | | | |]|]; simpl; try discriminate.
  destruct (Qle_bool q 0) eqn:E; simpl; try discriminate.
  intros _; exists q; split; auto.
  apply Qnot_le_lt; intros H; apply Qle_bool_iff in H; congruence.
Qed.

Lemma success_coerce_date p v :
  success (coerce_date newDate p v) = true ->
  exists x t, v = Some x /\ newDate x = Some t.
Proof.
  destruct v as [x|]; simpl; try discriminate.
  destruct (newDate x) as [t|] eqn:E; simpl; try discriminate.
  intros _; exists x, t; auto.
Qed.


Lemma type_of_name_type_name t : type_of_name (type_name t) = Some t.
Proof. destruct t; reflexivity. Qed.

Lemma success_enum_type p v :
  success (enum ["income"; "expense"] p v) = true ->
  exists t, v = Some (Str (type_name t)).
Proof.
  destruct v as [[| | |s| | | |]|]; simpl; try discriminate.
  destruct (String.eqb_spec s "income") as [->|]; [exists T_income; auto|].
  destruct (String.eqb_spec s "expense") as [->|]; [exists T_expense; auto|].
  discriminate.
Qed.

Lemma success_expenseShape p o :
  success (expenseShape p (Obj o)) = true ->
  exists t d a v ty, Validated o t d a v ty.
Proof.
  unfold expenseShape. rewrite !success_ap. simpl (success (Success _)).
  rewrite !andb_true_iff. intros [[[[[_ Ht] Hd] Ha] Hv] Hty].
  apply success_string_min in Ht as (t & Ht & _).
  apply success_string_min in Hd as (d & Hd & _).
  apply success_positive in Ha as (a & Ha & Hpos).
  apply success_coerce_date in Hv as (v & ms & Hv & Hms).
  apply success_enum_type in Hty as (ty & Hty).
  exists t, d, a, v, ty. split; eauto.
Qed.

(* ================================================================== *)
(** ** Creation *)
(* ================================================================== *)

Lemma has_id_fresh s : has_id s (newObjectId (ids s)) = false.
Proof using Type newObjectId_fresh.
  unfold has_id. destruct (existsb _ _) eqn:E; auto.
  apply existsb_exists in E as (x & Hin & Hx).
  apply N.eqb_eq in Hx; subst x.
  exfalso; apply (newObjectId_fresh (ids s)); auto.
Qed.

Lemma has_id_In s id : has_id s id = true <-> In id (ids s).
Proof.
  unfold has_id. rewrite existsb_exists. split.
  - intros (x & Hin & Hx). apply N.eqb_eq in Hx. rewrite Hx. exact Hin.
  - intros H. exists id. split; auto. apply N.eqb_refl.
Qed.

Lemma post_add_validated caller o t d a v ty s :
  success (safeParse add_requireBody (Obj o)) = true ->
  Validated o t d a v ty ->
  post_add caller (Obj o) s =
    match cast_Date "date" v with
    | Done dt =>
        (mkResponse 201 (OneExpense "Expense added successfully" (added caller s t d a dt ty)),
         s ++ [added caller s t d a dt ty])
    | Thrown e => (mkResponse 500 (Failed "Error adding expense" e), s)
    end.
Proof using Type newObjectId_fresh.
  intros Hok [Ht Hd Ha _ Hv _ Hty].
  unfold post_add. rewrite Hok. cbn [negb prop]. cbv zeta.
  rewrite Ht, Hd, Ha, Hv, Hty.
  unfold try_catch, bind, expenseModel_create, document. simpl.
  destruct (cast_Date "date" v) as [dt|e]; simpl; auto.
  rewrite type_of_name_type_name. simpl.
  unfold insertOne. simpl. rewrite has_id_fresh. reflexivity.
Qed.

Lemma post_add_cases caller body s :
  (exists error, post_add caller body s = (mkResponse 400 (Invalid "Invalid data" error), s))
  \/ (exists e, post_add caller body s = (mkResponse 500 (Failed "Error adding expense" e), s))
  \/ (exists x, post_add caller body s =
                  (mkResponse 201 (OneExpense "Expense added successfully" x), s ++ [x])
                /\ userId x = Some caller /\ ~ In (_id x) (ids s)).
Proof using Type newObjectId_fresh.
  destruct (success (safeParse add_requireBody body)) eqn:Hok.
  - destruct (success_object _ _ _ Hok) as (o & [= ->] & Hshape).
    destruct (success_expenseShape _ _ Hshape) as (t & d & a & v & ty & HV).
    rewrite (post_add_validated caller o t d a v ty s Hok HV).
    destruct (cast_Date "date" v) as [dt|e].
    + right; right. eexists; split; [reflexivity|]. split; auto.
      simpl. apply newObjectId_fresh.
    + right; left. eauto.
  - left. unfold post_add. rewrite Hok. simpl. eexists; reflexivity.
Qed.

Lemma lookup_assign_same o k v : lookup k (assign o k v) = Some v.
Proof. unfold assign. simpl. rewrite String.eqb_refl. reflexivity. Qed.


Lemma lookup_withUserId caller x :
  lookup "userId" (withUserId caller x) = Some (Oid caller).
Proof.
  destruct x; simpl; auto using lookup_assign_same.
Qed.

Lemma document_userId used o d caller :
  lookup "userId" o = Some (Oid caller) ->
  document used o = Done d -> userId d = Some caller.
Proof.
  intros Hu H. unfold document in H. rewrite Hu in H.
  invert_casts H. injection H as <-. reflexivity.
Qed.

Lemma documents_userId caller xs : forall used ds,
  documents used (map (withUserId caller) xs) = Done ds ->
  Forall (fun d => userId d = Some caller) ds /\ length ds = length xs.
Proof.
  induction xs as [|x xs IH]; simpl; intros used ds H.
  - injection H as <-. auto.
  - invert_casts H. injection H as <-.
    apply IH in E0 as [HF HL]. split; simpl; auto.
    constructor; auto.
    eapply document_userId; eauto using lookup_withUserId.
Qed.

Lemma insert_ordered_prefix ds : forall s,
  exists pre post, ds = pre ++ post /\
    snd (insert_ordered ds s) = s ++ pre /\
    (forall u, fst (insert_ordered ds s) = Done u -> post = []) /\
    (forall e, fst (insert_ordered ds s) = Thrown e -> post <> []).
Proof.
  induction ds as [|d ds IH]; intros s; simpl.
  - exists [], []. unfold ret; simpl. rewrite app_nil_r.
    repeat split; auto; discriminate.
  - unfold bind, insertOne. destruct (has_id s (_id d)) eqn:E.
    + exists [], (d :: ds). simpl. rewrite app_nil_r.
      repeat split; auto; discriminate.
    + destruct (IH (s ++ [d])) as (pre & post & -> & Hs & Hd & Ht).
      exists (d :: pre), post. rewrite Hs, <- app_assoc. simpl. auto.
Qed.

Lemma post_add_bulk_cases caller body s :
  (exists error, post_add_bulk caller body s = (mkResponse 400 (Invalid "Invalid data" error), s))
  \/ (exists e new, post_add_bulk caller body s =
                      (mkResponse 500 (Failed "Error adding expenses" e), s ++ new)
                    /\ Forall (fun d => userId d = Some caller) new)
  \/ (exists xs new, prop body "expenses" = Some (Arr xs) /\
        post_add_bulk caller body s =
          (mkResponse 201
             (ManyExpenses (decimal (length new) ++ " expenses added successfully") new),
           s ++ new)
        /\ Forall (fun d => userId d = Some caller) new /\ length new = length xs).
Proof.
  unfold post_add_bulk.
  destruct (success (safeParse bulk_requireBody body)) eqn:Hok; simpl.
  2:{ left. eexists; reflexivity. }
  right. destruct (prop body "expenses") as [[| | | |xs| | |]|] eqn:Hx;
    try (left; exists (TypeError "expenses.map is not a function"), [];
         rewrite app_nil_r; split; [reflexivity|constructor]).
  unfold try_catch, bind, expenseModel_insertMany.
  destruct (documents (ids s) (map (withUserId caller) xs)) as [ds|e] eqn:Hds.
  2:{ left. exists e, []. rewrite app_nil_r. split; [reflexivity|constructor]. }
  apply documents_userId in Hds as [HF HL].
  destruct (insert_ordered_prefix ds s) as (pre & post & -> & Hs & Hd & Ht).
  unfold bind, ret.
  destruct (insert_ordered (pre ++ post) s) as [[[]|e] s'] eqn:Hins;
    simpl in Hs, Hd, Ht |- *; subst s'.
  - right. rewrite (Hd tt eq_refl), app_nil_r in HL, HF |- *.
    exists xs, pre. auto.
  - left. exists e, pre. split; auto.
    apply Forall_app in HF. exact (proj1 HF).
Qed.










(* ================================================================== *)
(** ** Rejection before persistence *)
(* ================================================================== *)

Lemma issues_fmap {A B} (f : A -> B) (x : SafeParse A) :
  issues (fmap f x) = issues x.
Proof. destruct x; reflexivity. Qed.

Lemma issue_not_success {A} (r : SafeParse A) i :
  In i (issues r) -> success r = false.
Proof. destruct r; simpl; auto. contradiction. Qed.

Lemma shape_issue_amount p x :
  bad_amount x -> issue_at (p ++ [Key "amount"]) (issues (expenseShape p x)).
Proof.
  intros (q & Hq & Hle). exists too_small.
  unfold expenseShape. rewrite !issues_ap.
  apply in_or_app; left. apply in_or_app; left. apply in_or_app; right.
  unfold field. rewrite Hq. simpl.
  apply Qle_bool_iff in Hle. rewrite Hle. simpl. auto.
Qed.

Lemma shape_issue_type p x :
  bad_type x -> issue_at (p ++ [Key "type"]) (issues (expenseShape p x)).
Proof.
  intros (v & Hv & Hi & He).
  assert (H : issue_at (p ++ [Key "type"])
                (issues (field "type" (enum ["income"; "expense"]) p x))).
  { unfold field. rewrite Hv.
    destruct v as [| | |s| | | |]; simpl;
      try solve [exists invalid_type; simpl; auto].
    destruct (String.eqb_spec s "income") as [->|]; [congruence|].
    destruct (String.eqb_spec s "expense") as [->|]; [congruence|].
    exists invalid_enum_value; simpl; auto. }
  destruct H as (c & Hc). exists c.
  unfold expenseShape. rewrite !issues_ap.
  apply in_or_app; right. exact Hc.
Qed.

Lemma bad_is_object x : bad_amount x \/ bad_type x -> exists o, x = Obj o.
Proof.
  intros [(q & H & _)|(v & H & _)]; destruct x; try discriminate; eauto.
Qed.

Lemma object_issue_amount p x :
  bad_amount x -> issue_at (p ++ [Key "amount"]) (issues (object expenseShape p (Some x))).
Proof.
  intros H. destruct (bad_is_object x (or_introl H)) as (o & ->).
  simpl. apply shape_issue_amount; auto.
Qed.

Lemma object_issue_type p x :
  bad_type x -> issue_at (p ++ [Key "type"]) (issues (object expenseShape p (Some x))).
Proof.
  intros H. destruct (bad_is_object x (or_intror H)) as (o & ->).
  simpl. apply shape_issue_type; auto.
Qed.

Lemma elements_issue {A} (z : ZodType A) p xs : forall k i x iss,
  nth_error xs i = Some x ->
  In iss (issues (z (p ++ [Idx (k + i)]) (Some x))) ->
  In iss (issues (elements z p k xs)).
Proof.
  induction xs as [|y xs IH]; intros k [|i] x iss Hn Hin; simpl in Hn; try discriminate.
  - injection Hn as ->. cbn [elements]. rewrite issues_ap, issues_fmap.
    apply in_or_app; left. rewrite Nat.add_0_r in Hin. exact Hin.
  - cbn [elements]. rewrite issues_ap, issues_fmap.
    apply in_or_app; right. apply (IH (S k) i x); auto.
    rewrite Nat.add_succ_comm. exact Hin.
Qed.

Lemma array_issue {A} (z : ZodType A) lo hi p xs i x iss :
  nth_error xs i = Some x ->
  In iss (issues (z (p ++ [Idx i]) (Some x))) ->
  In iss (issues (array z lo hi p (Some (Arr xs)))).
Proof.
  intros Hn Hin. pose proof (elements_issue z p xs 0 i x iss Hn Hin) as H.
  unfold array. cbv zeta.
  match goal with
  | |- context [match ?size with [] => _ | _ :: _ => _ end] => destruct size
  end; auto.
  cbn [issues]. apply in_or_app; right. exact H.
Qed.

Lemma bulk_issue body xs i x k :
  prop body "expenses" = Some (Arr xs) ->
  nth_error xs i = Some x ->
  issue_at ([Key "expenses"; Idx i] ++ [Key k]) (issues (object expenseShape [Key "expenses"; Idx i] (Some x))) ->
  issue_at [Key "expenses"; Idx i; Key k] (issues (safeParse bulk_requireBody body)).
Proof.
  intros Hx Hn (c & Hc). exists c.
  destruct body; try discriminate. simpl in Hx.
  unfold safeParse, bulk_requireBody, object. rewrite issues_ap.
  unfold field. simpl prop. rewrite Hx.
  apply (array_issue _ 1 100 _ xs i x); auto.
Qed.

(** C4. A creation request whose payload has [amount <= 0] or a [type]
    outside the two names is answered 400 with the issues found, one of
    them at the offending field, and the collection is left as it was;
    for [/add/bulk] the payload is any element of [expenses]. *)
Theorem C4_invalid_creation_rejected (caller : ObjectId) (s : Store) :
  (forall body, bad_amount body \/ bad_type body ->
     exists error,
       post_add caller body s = (mkResponse 400 (Invalid "Invalid data" error), s)
       /\ (bad_amount body -> issue_at [Key "amount"] error)
       /\ (bad_type body -> issue_at [Key "type"] error))
  /\ (forall body xs i x,
     prop body "expenses" = Some (Arr xs) ->
     nth_error xs i = Some x ->
     bad_amount x \/ bad_type x ->
     exists error,
       post_add_bulk caller body s = (mkResponse 400 (Invalid "Invalid data" error), s)
       /\ (bad_amount x -> issue_at [Key "expenses"; Idx i; Key "amount"] error)
       /\ (bad_type x -> issue_at [Key "expenses"; Idx i; Key "type"] error)).
Proof.
  split.
  - intros body Hbad. exists (issues (safeParse add_requireBody body)).
    assert (Ha : bad_amount body -> issue_at [Key "amount"] (issues (safeParse add_requireBody body)))
      by (intros H; apply (object_issue_amount [] body H)).
    assert (Ht : bad_type body -> issue_at [Key "type"] (issues (safeParse add_requireBody body)))
      by (intros H; apply (object_issue_type [] body H)).
    split; [|split; assumption].
    assert (Hno : success (safeParse add_requireBody body) = false).
    { destruct Hbad as [H|H]; [apply Ha in H|apply Ht in H];
        destruct H as (c & Hc); eapply issue_not_success; eauto. }
    unfold post_add. rewrite Hno. reflexivity.
  - intros body xs i x Hx Hn Hbad.
    exists (issues (safeParse bulk_requireBody body)).
    assert (Ha : bad_amount x ->
                 issue_at [Key "expenses"; Idx i; Key "amount"] (issues (safeParse bulk_requireBody body))).
    { intros H. eapply bulk_issue; eauto. apply object_issue_amount; auto. }
    assert (Ht : bad_type x ->
                 issue_at [Key "expenses"; Idx i; Key "type"] (issues (safeParse bulk_requireBody body))).
    { intros H. eapply bulk_issue; eauto. apply object_issue_type; auto. }
    split; [|split; assumption].
    assert (Hno : success (safeParse bulk_requireBody body) = false).
    { destruct Hbad as [H|H]; [apply Ha in H|apply Ht in H];
        destruct H as (c & Hc); eapply issue_not_success; eauto. }
    unfold post_add_bulk. rewrite Hno. reflexivity.
Qed.

(* ================================================================== *)
(** ** Lookups by id under the owner filter *)
(* ================================================================== *)

Lemma cast_ObjectId_Str path id oid :
  castObjectId (Str id) = Some oid -> cast_ObjectId path (Str id) = Done oid.
Proof. intros H. unfold cast_ObjectId. rewrite H. reflexivity. Qed.

Lemma owned_by_spec caller d : owned_by caller d = true <-> userId d = Some caller.
Proof.
  unfold owned_by. destruct (userId d) as [u|]; [|split; discriminate].
  rewrite N.eqb_eq. split; congruence.
Qed.

Lemma by_id_and_owner_spec id caller d :
  by_id_and_owner id caller d = true <-> _id d = id /\ userId d = Some caller.
Proof.
  unfold by_id_and_owner. rewrite andb_true_iff, N.eqb_eq, owned_by_spec. tauto.
Qed.

Lemma same_id_same_document s : NoDup (ids s) ->
  forall d d', In d s -> In d' s -> _id d = _id d' -> d = d'.
Proof.
  induction s as [|x s IH]; simpl; intros Hnd d d' Hd Hd' Heq; [contradiction|].
  apply NoDup_cons_iff in Hnd as [Hx Hnd'].
  destruct Hd as [<-|Hd], Hd' as [<-|Hd']; auto.
  - exfalso. apply Hx. rewrite Heq. apply in_map; auto.
  - exfalso. apply Hx. rewrite <- Heq. apply in_map; auto.
Qed.

Lemma findOne_none id caller s :
  absent id s \/ owned_by_other caller id s ->
  List.find (by_id_and_owner id caller) s = None.
Proof.
  intros H. destruct (List.find _ s) as [x|] eqn:E; auto. exfalso.
  apply find_some in E as [Hin Hx]. apply by_id_and_owner_spec in Hx as [Hid Hu].
  destruct H as [Habs|(Hnd & d & Hd & Hdid & Hdu)].
  - apply Habs. rewrite <- Hid. apply in_map; auto.
  - assert (x = d) by (eapply same_id_same_document; eauto; congruence).
    subst x. contradiction.
Qed.

Lemma findOne_some id caller s d :
  In d s -> _id d = id -> userId d = Some caller ->
  exists d', List.find (by_id_and_owner id caller) s = Some d'
             /\ In d' s /\ _id d' = id /\ userId d' = Some caller
             /\ (NoDup (ids s) -> d' = d).
Proof.
  intros Hin Hid Hu.
  destruct (List.find (by_id_and_owner id caller) s) as [d'|] eqn:E.
  - pose proof (find_some _ _ E) as [Hin' Hd'].
    apply by_id_and_owner_spec in Hd' as [Hid' Hu'].
    exists d'. repeat split; auto.
    intros Hnd. eapply same_id_same_document; eauto. congruence.
  - exfalso. pose proof (find_none _ _ E d Hin) as Hf.
    assert (by_id_and_owner id caller d = true) by (apply by_id_and_owner_spec; auto).
    congruence.
Qed.

Lemma remove_first_none f s : List.find f s = None -> remove_first f s = s.
Proof.
  induction s as [|x s IH]; simpl; auto.
  destruct (f x); [discriminate|]. intros H. rewrite IH; auto.
Qed.

Lemma replace_first_same f s d : List.find f s = Some d -> replace_first f d s = s.
Proof.
  induction s as [|x s IH]; simpl; [discriminate|].
  destruct (f x); [intros [= ->]; reflexivity|].
  intros H. rewrite IH; auto.
Qed.

Lemma get_by_id_spec caller id oid s :
  castObjectId (Str id) = Some oid ->
  get_by_id caller id s =
    match List.find (by_id_and_owner oid caller) s with
    | Some d => (mkResponse 200 (FoundExpense d), s)
    | None => (not_found, s)
    end.
Proof.
  intros Hc. unfold get_by_id, expenseModel_findOne, try_catch, bind, lift.
  rewrite (cast_ObjectId_Str _ _ _ Hc).
  destruct (List.find _ s); reflexivity.
Qed.

Lemma delete_by_id_spec caller id oid s :
  castObjectId (Str id) = Some oid ->
  delete_by_id caller id s =
    match List.find (by_id_and_owner oid caller) s with
    | Some d => (mkResponse 200 (Message "Expense deleted successfully"),
                 remove_first (by_id_and_owner oid caller) s)
    | None => (not_found, s)
    end.
Proof.
  intros Hc. unfold delete_by_id, expenseModel_findOneAndDelete, try_catch, bind, lift.
  rewrite (cast_ObjectId_Str _ _ _ Hc).
  destruct (List.find _ s) eqn:E; auto.
  rewrite remove_first_none; auto.
Qed.

Lemma put_by_id_spec caller id oid body s :
  castObjectId (Str id) = Some oid ->
  put_by_id caller id body s =
    if negb (success (safeParse update_requireBody body)) then
      (mkResponse 400 (Invalid "Invalid data" (issues (safeParse update_requireBody body))), s)
    else
      match castUpdate body with
      | Thrown e => (mkResponse 500 (Failed "Error updating expense" e), s)
      | Done u =>
          match List.find (by_id_and_owner oid caller) s with
          | None => (not_found, s)
          | Some d =>
              match apply_update u d with
              | Done d' =>
                  (mkResponse 200 (OneExpense "Expense updated successfully" d'),
                   replace_first (by_id_and_owner oid caller) d' s)
              | Thrown e => (mkResponse 500 (Failed "Error updating expense" e), s)
              end
          end
      end.
Proof.
  intros Hc. unfold put_by_id.
  destruct (negb _); [reflexivity|].
  unfold expenseModel_findOneAndUpdate, try_catch, bind, lift.
  rewrite (cast_ObjectId_Str _ _ _ Hc).
  destruct (castUpdate body) as [u|e]; auto.
  destruct (List.find _ s) as [d|]; auto.
  destruct (apply_update u d); auto.
Qed.


(** C10. An update with the empty body passes validation, and on an id
    the caller owns it answers 200 with the stored record and leaves the
    collection as it was. *)
Theorem C10_empty_update_is_identity (caller : ObjectId) (id : string) (oid : ObjectId)
    (s : Store) (d : Expense) :
  castObjectId (Str id) = Some oid ->
  In d s -> _id d = oid -> userId d = Some caller ->
  success (safeParse update_requireBody (Obj [])) = true
  /\ exists d',
       put_by_id caller id (Obj []) s
       = (mkResponse 200 (OneExpense "Expense updated successfully" d'), s)
       /\ In d' s /\ _id d' = oid /\ userId d' = Some caller
       /\ (NoDup (ids s) -> d' = d).
Proof.
  intros Hc Hin Hid Hu. split; [reflexivity|].
  destruct (findOne_some oid caller s d Hin Hid Hu) as (d' & Hf & Hin' & Hid' & Hu' & Heq).
  exists d'. split; auto.
  rewrite (put_by_id_spec _ _ _ _ _ Hc), Hf. simpl.
  unfold apply_update. simpl. rewrite N.eqb_refl.
  replace (mkExpense _ _ _ _ _ _ _) with d' by (destruct d'; reflexivity).
  rewrite replace_first_same; auto.
Qed.


(* ================================================================== *)
(** ** Bulk delete *)
(* ================================================================== *)

Lemma in_ids_and_owner_spec oids caller d :
  in_ids_and_owner oids caller d = true <-> In (_id d) oids /\ userId d = Some caller.
Proof.
  unfold in_ids_and_owner. rewrite andb_true_iff, owned_by_spec, existsb_exists.
  split; intros [H Hu]; split; auto.
  - destruct H as (x & Hin & Hx). apply N.eqb_eq in Hx. rewrite Hx. exact Hin.
  - exists (_id d). split; auto. apply N.eqb_refl.
Qed.

Lemma elements_strings p strs : forall i,
  success (elements (string_min 0) p i (map Str strs)) = true.
Proof.
  induction strs as [|x strs IH]; intros i; cbn [elements map]; auto.
  rewrite success_ap, success_fmap, IH. reflexivity.
Qed.

Lemma success_delete body strs :
  prop body "expenseIds" = Some (Arr (map Str strs)) ->
  (1 <= length strs <= 100)%nat ->
  success (safeParse delete_requireBody body) = true.
Proof.
  intros Hx [Hlo Hhi]. destruct body; try discriminate. simpl in Hx.
  unfold safeParse, delete_requireBody, object. rewrite success_ap.
  unfold field. simpl prop. rewrite Hx. unfold array. rewrite length_map.
  destruct (Nat.leb_spec 1 (length strs)); [|lia].
  destruct (Nat.leb_spec (length strs) 100); [|lia].
  simpl. apply elements_strings.
Qed.



Lemma NoDup_ids s : NoDup (ids s) -> NoDup s.
Proof. apply NoDup_map_inv. Qed.



(* ================================================================== *)
(** ** Summary statistics *)
(* ================================================================== *)


Lemma matches_summary caller data d :
  matches (summary_filter caller data) d = true
  <-> userId d = Some caller /\ in_range (q_startDate data) (q_endDate data) (date d).
Proof.
  unfold matches, summary_filter, in_range. simpl.
  rewrite !andb_true_iff, owned_by_spec.
  destruct (q_startDate data) as [lo|], (q_endDate data) as [hi|], (date d) as [t|];
    rewrite ?Z.leb_le; split;
    try (intros [[[Hu _] H1] H2]); try (intros [Hu [H1 H2]]);
    repeat split; auto; try discriminate;
    try (intros ? [= <-]; eauto);
    try (destruct (H1 _ eq_refl) as (x & [= <-] & ?); auto; fail);
    try (destruct (H2 _ eq_refl) as (x & [= <-] & ?); auto; fail);
    try (destruct (H1 _ eq_refl) as (x & ? & ?); discriminate);
    try (destruct (H2 _ eq_refl) as (x & ? & ?); discriminate).
Qed.














Lemma get_stats_summary_spec caller query data s :
  safeParse summary_querySchema query = Success data ->
  get_stats_summary caller query s =
    let summary := group_by_type (filter (matches (summary_filter caller data)) s) in
    (mkResponse 200
       (Summary (total_of T_income summary) (total_of T_expense summary)
          (total_of T_income summary - total_of T_expense summary) summary), s).
Proof.
  intros H. unfold get_stats_summary, summary_filter. rewrite H.
  destruct (q_startDate data), (q_endDate data); reflexivity.
Qed.


(** C9. When no document of the caller lies in the date range, the summary
    is answered 200 with both totals and the balance 0 and an empty
    breakdown. *)
Theorem C9_empty_summary (caller : ObjectId) (query : Value) (data : RangeQuery)
    (s : Store) :
  safeParse summary_querySchema query = Success data ->
  (forall d, In d s ->
     ~ (userId d = Some caller
        /\ in_range (q_startDate data) (q_endDate data) (date d))) ->
  get_stats_summary caller query s = (mkResponse 200 (Summary 0 0 0 []), s).
Proof.
  intros Hq Hnone.
  rewrite (get_stats_summary_spec caller query data s Hq).
  assert (E : filter (matches (summary_filter caller data)) s = []).
  { destruct (filter _ s) as [|d l] eqn:E; auto. exfalso.
    assert (Hin : In d (filter (matches (summary_filter caller data)) s))
      by (rewrite E; left; auto).
    apply filter_In in Hin as [Hin Hm]. apply matches_summary in Hm.
    apply (Hnone d Hin Hm). }
  rewrite E. reflexivity.
Qed.

(* ================================================================== *)
(** ** Top expenses by amount *)
(* ================================================================== *)

Lemma insert_desc_perm d l : Permutation (insert_desc d l) (d :: l).
Proof.
  induction l as [|x l IH]; simpl; auto.
  destruct (Qle_bool (amount x) (amount d)); auto.
  rewrite IH. apply perm_swap.
Qed.

Lemma sort_amount_desc_perm l : Permutation (sort_amount_desc l) l.
Proof.
  induction l as [|x l IH]; simpl; auto.
  rewrite insert_desc_perm. auto.
Qed.

Lemma insert_desc_descending d l : descending l -> descending (insert_desc d l).
Proof.
  unfold descending. induction 1 as [|x l Hs IH Hx]; simpl.
  - repeat constructor.
  - destruct (Qle_bool (amount x) (amount d)) eqn:E.
    + apply Qle_bool_iff in E. constructor; [constructor; auto|].
      constructor; auto.
      eapply Forall_impl; [|exact Hx]. simpl. intros y Hy.
      eapply Qle_trans; eauto.
    + constructor; auto.
      eapply Permutation_Forall; [symmetry; apply insert_desc_perm|].
      constructor; auto.
      apply Qlt_le_weak, Qnot_le_lt. intros H. apply Qle_bool_iff in H. congruence.
Qed.

Lemma sort_amount_desc_descending l : descending (sort_amount_desc l).
Proof.
  induction l as [|x l IH]; simpl.
  - constructor.
  - apply insert_desc_descending; auto.
Qed.

Lemma In_firstn {A} n (l : list A) x : In x (firstn n l) -> In x l.
Proof. intros H. rewrite <- (firstn_skipn n l). apply in_or_app; auto. Qed.

Lemma In_skipn {A} n (l : list A) x : In x (skipn n l) -> In x l.
Proof. intros H. rewrite <- (firstn_skipn n l). apply in_or_app; auto. Qed.

Lemma descending_firstn_skipn l : descending l ->
  forall n x y, In x (firstn n l) -> In y (skipn n l) -> amount y <= amount x.
Proof.
  unfold descending. induction 1 as [|a l Hs IH Ha]; intros n x y Hx Hy.
  - destruct n; contradiction.
  - destruct n as [|n]; simpl in Hx, Hy |- *; [contradiction|].
    destruct Hx as [<-|Hx]; [|eauto].
    rewrite Forall_forall in Ha. apply Ha.
    eapply In_skipn; eauto.
Qed.

Lemma descending_firstn l n : descending l -> descending (firstn n l).
Proof.
  unfold descending. intros H. revert n.
  induction H as [|a l Hs IH Ha]; intros [|n]; simpl; try constructor; auto.
  rewrite Forall_forall in Ha |- *. intros y Hy. apply Ha. eapply In_firstn; eauto.
Qed.

Lemma matches_top caller ty d :
  matches (top_filter caller ty) d = true
  <-> userId d = Some caller /\ (forall t, ty = Some t -> type d = t).
Proof.
  unfold matches, top_filter. simpl. rewrite !andb_true_iff, owned_by_spec.
  destruct ty as [t|]; simpl.
  - split.
    + intros [[[Hu Ht] _] _]. split; auto. intros t' [= <-].
      apply String.eqb_eq in Ht. destruct (type d), t; auto; discriminate.
    + intros [Hu Ht]. rewrite (Ht t eq_refl), String.eqb_refl. auto.
  - split; [intros [[[Hu _] _] _]; split; auto; discriminate|tauto].
Qed.

(** What [top_n] is: the first [n] of the caller's documents ordered by
    amount, so at most [n] of them, in descending order, none smaller than
    one that is left out. *)
Lemma top_n_spec caller ty n s :
  descending (top_n caller ty n s)
  /\ length (top_n caller ty n s)
     = Nat.min n (length (filter (matches (top_filter caller ty)) s))
  /\ exists rest,
       Permutation (top_n caller ty n s ++ rest) (filter (matches (top_filter caller ty)) s)
       /\ forall x y, In x (top_n caller ty n s) -> In y rest -> amount y <= amount x.
Proof.
  unfold top_n. set (owned := filter _ s). split; [|split].
  - apply descending_firstn, sort_amount_desc_descending.
  - rewrite length_firstn, (Permutation_length (sort_amount_desc_perm owned)). reflexivity.
  - exists (skipn n (sort_amount_desc owned)). split.
    + rewrite firstn_skipn. apply sort_amount_desc_perm.
    + apply descending_firstn_skipn, sort_amount_desc_descending.
Qed.

Lemma is_whole_nat q n : q == inject_Z (Z.of_nat n) ->
  is_whole q = true /\ Z.to_nat (Qfloor q) = n.
Proof.
  intros H. unfold is_whole.
  assert (Hf : Qfloor q = Z.of_nat n) by (rewrite H; apply Qfloor_Z).
  rewrite Hf. split; [apply Qeq_bool_iff; exact H|apply Nat2Z.id].
Qed.

Lemma parse_type p query ty :
  type_param query ty ->
  field "type" (optional (enum ["income"; "expense"])) p query
  = Success (option_map type_name ty).
Proof.
  unfold type_param, field. intros ->. destruct ty as [[]|]; reflexivity.
Qed.

Lemma find_top caller ty q n s :
  q == inject_Z (Z.of_nat n) ->
  try_catch
    (let filter := mkFilter caller None None None in
     let filter :=
       match option_map type_name ty with
       | Some t => if String.eqb t "" then filter else mkFilter caller (Some t) None None
       | None => filter
       end in
     expenses <- expenseModel_find_sort_limit filter q ;;
     ret (mkResponse 200 (Expenses expenses)))
    (fun error => mkResponse 500 (Failed "Error fetching top expenses" error)) s
  = (mkResponse 200 (Expenses (top_n caller ty n s)), s).
Proof.
  intros Hq. destruct (is_whole_nat q n Hq) as [Hw Hn].
  unfold try_catch, bind, ret, expenseModel_find_sort_limit, limit_to, top_n.
  rewrite Hw, Hn. destruct ty as [[]|]; reflexivity.
Qed.

Lemma parse_limit p v q :
  Number v = Some q -> 0 < q -> q <= 50 ->
  default (coerce_number Number [Positive; Max 50]) (Num 10) p (Some v) = Success q.
Proof.
  intros Hv Hpos Hmax. simpl. rewrite Hv. simpl.
  destruct (Qle_bool q 0) eqn:E0.
  { apply Qle_bool_iff in E0. exfalso. apply (Qlt_not_le _ _ Hpos E0). }
  apply Qle_bool_iff in Hmax. rewrite Hmax. reflexivity.
Qed.

Lemma parse_limit_rejects p v :
  Number v = None \/ (exists q, Number v = Some q /\ (q <= 0 \/ 50 < q)) ->
  success (default (coerce_number Number [Positive; Max 50]) (Num 10) p (Some v)) = false.
Proof.
  intros [Hv|(q & Hv & Hq)]; simpl; rewrite Hv; simpl; auto.
  destruct Hq as [Hq|Hq].
  - apply Qle_bool_iff in Hq. rewrite Hq. simpl.
    destruct (Qle_bool q 50); reflexivity.
  - destruct (Qle_bool q 50) eqn:E.
    { apply Qle_bool_iff in E. exfalso. apply (Qlt_not_le _ _ Hq E). }
    destruct (Qle_bool q 0); reflexivity.
Qed.

(** A [limit] above 0 and up to 50 passes validation, whole or not. *)
Lemma get_top_accepts caller o ty v q s :
  type_param (Obj o) ty ->
  lookup "limit" o = Some v -> Number v = Some q -> 0 < q -> q <= 50 ->
  status (fst (get_top caller (Obj o) s)) <> 400%nat.
Proof.
  intros Hty Hl Hv Hpos Hmax.
  unfold get_top, safeParse, top_querySchema, object.
  rewrite (parse_type _ _ _ Hty). unfold field. cbn [prop]. rewrite Hl.
  rewrite (parse_limit _ v q Hv Hpos Hmax). simpl.
  unfold try_catch, bind, expenseModel_find_sort_limit.
  destruct (limit_to q _); simpl; discriminate.
Qed.

(** C8, amended. [limit] defaults to 10; a [limit] that is not a number,
    is not above 0 or is above 50 is answered 400; a whole [limit] from 1
    to 50 is answered 200 with that many of the caller's documents (of the
    type asked for, if any), the largest amounts first. *)
Theorem C8_top (caller : ObjectId) (o : Object) (ty : option ExpenseType) (s : Store) :
  type_param (Obj o) ty ->
  (lookup "limit" o = None ->
   get_top caller (Obj o) s = (mkResponse 200 (Expenses (top_n caller ty 10 s)), s))
  /\ (forall v q n,
        lookup "limit" o = Some v -> Number v = Some q ->
        q == inject_Z (Z.of_nat n) -> (1 <= n <= 50)%nat ->
        get_top caller (Obj o) s = (mkResponse 200 (Expenses (top_n caller ty n s)), s))
  /\ (forall v,
        lookup "limit" o = Some v ->
        Number v = None \/ (exists q, Number v = Some q /\ (q <= 0 \/ 50 < q)) ->
        exists error,
          get_top caller (Obj o) s
          = (mkResponse 400 (Invalid "Invalid query parameters" error), s))
  /\ (forall n,
        descending (top_n caller ty n s)
        /\ length (top_n caller ty n s)
           = Nat.min n (length (filter (matches (top_filter caller ty)) s))
        /\ (forall d, In d (filter (matches (top_filter caller ty)) s) <->
              In d s /\ userId d = Some caller /\ (forall t, ty = Some t -> type d = t))
        /\ exists rest,
             Permutation (top_n caller ty n s ++ rest)
               (filter (matches (top_filter caller ty)) s)
             /\ forall x y, In x (top_n caller ty n s) -> In y rest ->
                            amount y <= amount x).
Proof.
  intros Hty. split; [|split; [|split]].
  - intros Hl. unfold get_top, safeParse, top_querySchema, object.
    rewrite (parse_type _ _ _ Hty). unfold field. cbn [prop]. rewrite Hl.
    simpl. apply (find_top caller ty 10 10 s). reflexivity.
  - intros v q n Hl Hv Hq [Hlo Hhi].
    unfold get_top, safeParse, top_querySchema, object.
    rewrite (parse_type _ _ _ Hty). unfold field. cbn [prop]. rewrite Hl.
    rewrite (parse_limit _ v q Hv).
    + simpl. apply (find_top caller ty q n s Hq).
    + rewrite Hq. unfold Qlt; simpl. lia.
    + rewrite Hq. unfold Qle; simpl. lia.
  - intros v Hl Hbad.
    unfold get_top, safeParse, top_querySchema, object.
    rewrite (parse_type _ _ _ Hty). unfold field. cbn [prop]. rewrite Hl.
    pose proof (parse_limit_rejects ([] ++ [Key "limit"]) v Hbad) as Hr.
    destruct (default _ _ _ _) as [x|e]; [discriminate|].
    simpl. eexists; reflexivity.
  - intros n. destruct (top_n_spec caller ty n s) as (Hd & Hl & Hrest).
    split; [exact Hd|]. split; [exact Hl|]. split; [|exact Hrest].
    intros d. rewrite filter_In, matches_top. reflexivity.
Qed.

(** C3. What the code does instead: the raw body goes to the store, so a
    [userId] in it, which no schema validated, is written to the caller's
    document. *)
Theorem C3_update_writes_unvalidated_userId (caller : ObjectId) (id u : string)
    (oid other : ObjectId) (s : Store) (d : Expense) :
  castObjectId (Str id) = Some oid ->
  castObjectId (Str u) = Some other ->
  NoDup (ids s) -> In d s -> _id d = oid -> userId d = Some caller ->
  let body := Obj [("userId", Str u)] in
  let d' := mkExpense (_id d) (title d) (description d) (amount d) (date d) (type d)
              (Some other) in
  success (safeParse update_requireBody body) = true
  /\ put_by_id caller id body s
     = (mkResponse 200 (OneExpense "Expense updated successfully" d'),
        replace_first (by_id_and_owner oid caller) d' s)
  /\ In d' (replace_first (by_id_and_owner oid caller) d' s).
Proof.
  intros Hc Hu Hnd Hin Hid Hown body d'. split; [reflexivity|].
  destruct (findOne_some oid caller s d Hin Hid Hown) as (x & Hf & _ & _ & _ & Heq).
  rewrite (Heq Hnd) in Hf. clear x Heq.
  assert (Hput : put_by_id caller id body s
     = (mkResponse 200 (OneExpense "Expense updated successfully" d'),
        replace_first (by_id_and_owner oid caller) d' s)).
  { rewrite (put_by_id_spec _ _ _ _ _ Hc). simpl negb. cbv iota.
    unfold body, castUpdate. simpl lookup.
    unfold cast_if_set, cast_nullable_ObjectId. cbn [bindO].
    rewrite (cast_ObjectId_Str _ _ _ Hu). cbn [bindO]. rewrite Hf.
    unfold apply_update. simpl. rewrite N.eqb_refl. reflexivity. }
  split; [exact Hput|].
  clear Hput. induction s as [|x s IH]; simpl in Hf, Hin, Hnd |- *; [discriminate|].
  destruct (by_id_and_owner oid caller x); [left; auto|].
  right. apply NoDup_cons_iff in Hnd as [_ Hnd]. apply IH; auto.
  destruct Hin as [->|Hin]; auto.
  apply find_some in Hf as [Hf _]. exact Hf.
Qed.

(* ================================================================== *)
(** ** What validation guarantees about the stored fields *)
(* ================================================================== *)






(* ================================================================== *)
(** ** Every outcome of the writing handlers *)
(* ================================================================== *)

Lemma apply_update_id u d d' : apply_update u d = Done d' -> _id d' = _id d.
Proof.
  unfold apply_update. destruct (N.eqb _ _); [|discriminate].
  intros [= <-]. reflexivity.
Qed.

Lemma put_by_id_cases caller id body s :
  (exists error,
     put_by_id caller id body s = (mkResponse 400 (Invalid "Invalid data" error), s))
  \/ (exists e,
     put_by_id caller id body s = (mkResponse 500 (Failed "Error updating expense" e), s))
  \/ put_by_id caller id body s = (not_found, s)
  \/ (exists oid u d d',
        castObjectId (Str id) = Some oid
        /\ success (safeParse update_requireBody body) = true
        /\ castUpdate body = Done u
        /\ List.find (by_id_and_owner oid caller) s = Some d
        /\ apply_update u d = Done d'
        /\ put_by_id caller id body s
           = (mkResponse 200 (OneExpense "Expense updated successfully" d'),
              replace_first (by_id_and_owner oid caller) d' s)).
Proof.
  destruct (castObjectId (Str id)) as [oid|] eqn:Hc.
  - rewrite (put_by_id_spec caller id oid body s Hc).
    destruct (success (safeParse update_requireBody body)) eqn:Hok; simpl.
    2:{ left. eexists. reflexivity. }
    destruct (castUpdate body) as [u|e] eqn:Hu.
    2:{ right; left. eexists. reflexivity. }
    destruct (List.find _ s) as [d|] eqn:Hf.
    2:{ right; right; left. reflexivity. }
    destruct (apply_update u d) as [d'|e] eqn:Ha.
    + right; right; right. exists oid, u, d, d'. repeat split; auto.
    + right; left. eexists. reflexivity.
  - unfold put_by_id. destruct (negb _).
    + left. eexists. reflexivity.
    + right; left. unfold expenseModel_findOneAndUpdate, try_catch, bind, lift.
      unfold cast_ObjectId. rewrite Hc. eexists. reflexivity.
Qed.

Lemma delete_by_id_cases caller id s :
  (exists e,
     delete_by_id caller id s = (mkResponse 500 (Failed "Error deleting expense" e), s))
  \/ delete_by_id caller id s = (not_found, s)
  \/ (exists oid d,
        castObjectId (Str id) = Some oid
        /\ List.find (by_id_and_owner oid caller) s = Some d
        /\ delete_by_id caller id s
           = (mkResponse 200 (Message "Expense deleted successfully"),
              remove_first (by_id_and_owner oid caller) s)).
Proof.
  destruct (castObjectId (Str id)) as [oid|] eqn:Hc.
  - rewrite (delete_by_id_spec caller id oid s Hc).
    destruct (List.find _ s) as [d|] eqn:Hf.
    + right; right. exists oid, d. auto.
    + right; left. reflexivity.
  - left. unfold delete_by_id, expenseModel_findOneAndDelete, try_catch, bind, lift.
    unfold cast_ObjectId. rewrite Hc. eexists. reflexivity.
Qed.

Lemma post_duplicate_cases caller id now s :
  (exists e,
     post_duplicate caller id now s
     = (mkResponse 500 (Failed "Error duplicating expense" e), s))
  \/ post_duplicate caller id now s = (not_found, s)
  \/ (exists oid o,
        castObjectId (Str id) = Some oid
        /\ List.find (by_id_and_owner oid caller) s = Some o
        /\ post_duplicate caller id now s
           = (mkResponse 201
                (OneExpense "Expense duplicated successfully"
                   (mkExpense (newObjectId (ids s)) (title o ++ " (Copy)")
                      (description o) (amount o) (Some now) (type o) (Some caller))),
              s ++ [mkExpense (newObjectId (ids s)) (title o ++ " (Copy)")
                      (description o) (amount o) (Some now) (type o) (Some caller)])).
Proof using Type newObjectId_fresh.
  unfold post_duplicate, expenseModel_findOne, try_catch, bind, lift.
  destruct (castObjectId (Str id)) as [oid|] eqn:Hc.
  - rewrite (cast_ObjectId_Str _ _ _ Hc).
    destruct (List.find _ s) as [o|] eqn:Hf.
    + right; right. exists oid, o. split; [reflexivity|]. split; [exact Hf|].
      unfold expenseModel_create, document. simpl.
      rewrite type_of_name_type_name. simpl.
      unfold insertOne. simpl. rewrite has_id_fresh. reflexivity.
    + right; left. reflexivity.
  - left. unfold cast_ObjectId. rewrite Hc. eexists. reflexivity.
Qed.

Lemma delete_bulk_cases caller body s :
  (exists error,
     delete_bulk caller body s = (mkResponse 400 (Invalid "Invalid data" error), s))
  \/ (exists e,
     delete_bulk caller body s = (mkResponse 500 (Failed "Error deleting expenses" e), s))
  \/ (exists xs oids,
        success (safeParse delete_requireBody body) = true
        /\ prop body "expenseIds" = Some (Arr xs)
        /\ mapO (cast_ObjectId "_id") xs = Done oids
        /\ delete_bulk caller body s
           = (mkResponse 200
                (DeletedMany
                   (decimal (length (filter (in_ids_and_owner oids caller) s))
                    ++ " expenses deleted successfully")
                   (length (filter (in_ids_and_owner oids caller) s))),
              filter (fun d => negb (in_ids_and_owner oids caller d)) s)).
Proof.
  unfold delete_bulk.
  destruct (success (safeParse delete_requireBody body)) eqn:Hok; simpl.
  2:{ left. eexists. reflexivity. }
  destruct (prop body "expenseIds") as [[| | | |xs| | |]|];
    try (right; left; eexists; reflexivity).
  unfold expenseModel_deleteMany, try_catch, bind, lift, ret.
  destruct (mapO (cast_ObjectId "_id") xs) as [oids|e] eqn:Hm.
  - right; right. exists xs, oids. auto.
  - right; left. eexists. reflexivity.
Qed.

(** The collection after [/add/bulk]: unchanged, or the outcome of the
    ordered insertion of the documents built from the payloads. *)
Lemma post_add_bulk_store caller body s :
  snd (post_add_bulk caller body s) = s
  \/ (exists xs ds,
        success (safeParse bulk_requireBody body) = true
        /\ prop body "expenses" = Some (Arr xs)
        /\ documents (ids s) (map (withUserId caller) xs) = Done ds
        /\ snd (post_add_bulk caller body s) = snd (insert_ordered ds s)).
Proof.
  unfold post_add_bulk.
  destruct (success (safeParse bulk_requireBody body)) eqn:Hok; simpl; auto.
  destruct (prop body "expenses") as [[| | | |xs| | |]|] eqn:Hx; auto.
  unfold try_catch, bind, expenseModel_insertMany.
  destruct (documents (ids s) (map (withUserId caller) xs)) as [ds|e] eqn:Hds; auto.
  right. exists xs, ds. repeat split; auto.
  unfold bind, ret. destruct (insert_ordered ds s) as [[[]|e] s']; reflexivity.
Qed.





(* ================================================================== *)
(** ** Invariants of the collection *)
(* ================================================================== *)

Lemma ids_app s l : ids (s ++ l) = ids s ++ ids l.
Proof. apply map_app. Qed.

Lemma NoDup_ids_snoc s d :
  NoDup (ids s) -> ~ In (_id d) (ids s) -> NoDup (ids (s ++ [d])).
Proof.
  intros Hnd Hnew. rewrite ids_app. apply NoDup_app; auto.
  - repeat constructor. simpl. intros [].
  - intros x Hx [<-|[]]. contradiction.
Qed.

Lemma insert_ordered_NoDup ds : forall s,
  NoDup (ids s) -> NoDup (ids (snd (insert_ordered ds s))).
Proof.
  induction ds as [|d ds IH]; intros s Hnd; simpl; auto.
  unfold bind, insertOne. destruct (has_id s (_id d)) eqn:E; simpl; auto.
  apply IH. apply NoDup_ids_snoc; auto.
  intros Hin. apply has_id_In in Hin. congruence.
Qed.

Lemma NoDup_ids_filter p s : NoDup (ids s) -> NoDup (ids (filter p s)).
Proof.
  induction s as [|x s IH]; simpl; auto. intros Hnd.
  apply NoDup_cons_iff in Hnd as [Hx Hnd].
  destruct (p x); simpl; auto. constructor; auto.
  intros Hin. apply Hx. apply in_map_iff in Hin as (y & Hy & Hin).
  apply filter_In in Hin as [Hin _]. rewrite <- Hy. apply in_map. exact Hin.
Qed.

Lemma ids_replace_first f d d' s :
  List.find f s = Some d -> _id d' = _id d ->
  ids (replace_first f d' s) = ids s.
Proof.
  unfold ids. induction s as [|x s IH]; simpl; [discriminate|].
  destruct (f x); simpl.
  - intros [= <-] Hid. rewrite Hid. reflexivity.
  - intros Hf Hid. rewrite IH; auto.
Qed.

Lemma In_remove_first f s x : In x (remove_first f s) -> In x s.
Proof.
  induction s as [|y s IH]; simpl; auto.
  destruct (f y); simpl; [auto|]. intros [H|H]; auto.
Qed.

Lemma NoDup_ids_remove_first f s : NoDup (ids s) -> NoDup (ids (remove_first f s)).
Proof.
  induction s as [|x s IH]; simpl; auto. intros Hnd.
  apply NoDup_cons_iff in Hnd as [Hx Hnd].
  destruct (f x); simpl; auto. constructor; auto.
  intros Hin. apply Hx. apply in_map_iff in Hin as (y & Hy & Hin).
  rewrite <- Hy. apply in_map. eapply In_remove_first; eauto.
Qed.

Lemma In_remove_first_other f s x :
  In x s -> f x = false -> In x (remove_first f s).
Proof.
  induction s as [|y s IH]; simpl; auto.
  intros [->|Hin] Hf.
  - rewrite Hf. left. reflexivity.
  - destruct (f y); [exact Hin|]. right. auto.
Qed.

Lemma In_replace_first_other f d' s x :
  In x s -> f x = false -> In x (replace_first f d' s).
Proof.
  induction s as [|y s IH]; simpl; auto.
  intros [->|Hin] Hf.
  - rewrite Hf. left. reflexivity.
  - destruct (f y); right; auto.
Qed.


Lemma not_owned_not_matched caller oid x :
  userId x <> Some caller -> by_id_and_owner oid caller x = false.
Proof.
  intros Hu. destruct (by_id_and_owner oid caller x) eqn:E; auto.
  apply by_id_and_owner_spec in E as [_ E]. contradiction.
Qed.

Lemma not_owned_not_listed caller oids x :
  userId x <> Some caller -> in_ids_and_owner oids caller x = false.
Proof.
  intros Hu. destruct (in_ids_and_owner oids caller x) eqn:E; auto.
  apply in_ids_and_owner_spec in E as [_ E]. contradiction.
Qed.

(** X1. Ids stay unique: a collection in which no two documents share an
    id is still one after any writing handler, whatever the request and
    its outcome. *)
Theorem X1_writes_keep_ids_unique (caller : ObjectId) (w : Mutation) (s : Store) :
  NoDup (ids s) -> NoDup (ids (snd (run_write caller w s))).
Proof using Type newObjectId_fresh.
  intros Hnd. destruct w as [body|body|id now|body|id body|id]; simpl.
  - destruct (post_add_cases caller body s)
      as [(error & ->)|[(e & ->)|(x & -> & _ & Hnew)]]; simpl; auto.
    apply NoDup_ids_snoc; auto.
  - destruct (post_add_bulk_store caller body s) as [->|(xs & ds & _ & _ & _ & ->)]; auto.
    apply insert_ordered_NoDup; auto.
  - destruct (post_duplicate_cases caller id now s)
      as [(e & ->)|[->|(oid & o & _ & _ & ->)]]; simpl; auto.
    apply NoDup_ids_snoc; auto. simpl. apply newObjectId_fresh.
  - destruct (delete_bulk_cases caller body s)
      as [(error & ->)|[(e & ->)|(xs & oids & _ & _ & _ & ->)]]; simpl; auto.
    apply NoDup_ids_filter; auto.
  - destruct (put_by_id_cases caller id body s)
      as [(error & ->)|[(e & ->)|[->|(oid & u & d & d' & _ & _ & _ & Hf & Ha & ->)]]];
      simpl; auto.
    rewrite (ids_replace_first _ d d' s Hf (apply_update_id _ _ _ Ha)). exact Hnd.
  - destruct (delete_by_id_cases caller id s)
      as [(e & ->)|[->|(oid & d & _ & _ & ->)]]; simpl; auto.
    apply NoDup_ids_remove_first; auto.
Qed.

(** X2. No writing handler removes or changes a document that is not the
    caller's: every document of another owner (or of none) is still in the
    collection afterwards, whatever the request. *)
Theorem X2_writes_keep_others_documents (caller : ObjectId) (w : Mutation) (s : Store)
    (d : Expense) :
  In d s -> userId d <> Some caller -> In d (snd (run_write caller w s)).
Proof using Type newObjectId_fresh.
  intros Hin Hu. destruct w as [body|body|id now|body|id body|id]; simpl.
  - destruct (post_add_cases caller body s)
      as [(error & ->)|[(e & ->)|(x & -> & _ & _)]]; simpl; auto.
    apply in_or_app. auto.
  - destruct (post_add_bulk_cases caller body s)
      as [(error & ->)|[(e & new & -> & _)|(xs & new & _ & -> & _)]]; simpl; auto;
      apply in_or_app; auto.
  - destruct (post_duplicate_cases caller id now s)
      as [(e & ->)|[->|(oid & o & _ & _ & ->)]]; simpl; auto.
    apply in_or_app. auto.
  - destruct (delete_bulk_cases caller body s)
      as [(error & ->)|[(e & ->)|(xs & oids & _ & _ & _ & ->)]]; simpl; auto.
    apply filter_In. split; auto. rewrite not_owned_not_listed; auto.
  - destruct (put_by_id_cases caller id body s)
      as [(error & ->)|[(e & ->)|[->|(oid & u & x & x' & _ & _ & _ & _ & _ & ->)]]];
      simpl; auto.
    apply In_replace_first_other; auto using not_owned_not_matched.
  - destruct (delete_by_id_cases caller id s)
      as [(e & ->)|[->|(oid & x & _ & _ & ->)]]; simpl; auto.
    apply In_remove_first_other; auto using not_owned_not_matched.
Qed.









(** X4. A request that is refused changes nothing: after a 400 or a 404
    the collection is as it was, and so it is after a 500 of every writing
    handler but [/add/bulk], whose ordered insertion may stop half way. *)
Theorem X4_refused_write_changes_nothing (caller : ObjectId) (w : Mutation) (s : Store) :
  (status (fst (run_write caller w s)) = 400%nat
   \/ status (fst (run_write caller w s)) = 404%nat ->
   snd (run_write caller w s) = s)
  /\ ((forall body, w <> AddBulk body) ->
      status (fst (run_write caller w s)) = 500%nat ->
      snd (run_write caller w s) = s).
Proof using Type newObjectId_fresh.
  destruct w as [body|body|id now|body|id body|id]; simpl.
  - destruct (post_add_cases caller body s)
      as [(error & ->)|[(e & ->)|(x & -> & _ & _)]]; simpl; split; auto;
      try (intros [H|H]; discriminate H); intros _ H; discriminate H.
  - destruct (post_add_bulk_cases caller body s)
      as [(error & ->)|[(e & new & -> & _)|(xs & new & _ & -> & _)]]; simpl; split; auto;
      try (intros [H|H]; discriminate H); intros H; exfalso; apply (H body); reflexivity.
  - destruct (post_duplicate_cases caller id now s)
      as [(e & ->)|[->|(oid & o & _ & _ & ->)]]; simpl; split; auto;
      try (intros [H|H]; discriminate H); intros _ H; discriminate H.
  - destruct (delete_bulk_cases caller body s)
      as [(error & ->)|[(e & ->)|(xs & oids & _ & _ & _ & ->)]]; simpl; split; auto;
      try (intros [H|H]; discriminate H); intros _ H; discriminate H.
  - destruct (put_by_id_cases caller id body s)
      as [(error & ->)|[(e & ->)|[->|(oid & u & d & d' & _ & _ & _ & _ & _ & ->)]]];
      simpl; split; auto;
      try (intros [H|H]; discriminate H); intros _ H; discriminate H.
  - destruct (delete_by_id_cases caller id s)
      as [(e & ->)|[->|(oid & d & _ & _ & ->)]]; simpl; split; auto;
      try (intros [H|H]; discriminate H); intros _ H; discriminate H.
Qed.

(* ================================================================== *)
(** ** Creation, continued: what is stored and how it is read back *)
(* ================================================================== *)

Lemma find_app_new (f : Expense -> bool) s x :
  (forall y, In y s -> f y = false) -> f x = true ->
  List.find f (s ++ [x]) = Some x.
Proof.
  intros Hs Hx. induction s as [|y s IH]; simpl.
  - rewrite Hx. reflexivity.
  - rewrite (Hs y) by (left; reflexivity). apply IH.
    intros z Hz. apply Hs. right. exact Hz.
Qed.

Lemma find_app_none (f : Expense -> bool) s x :
  (forall y, In y s -> f y = false) -> f x = false ->
  List.find f (s ++ [x]) = None.
Proof.
  intros Hs Hx. induction s as [|y s IH]; simpl.
  - rewrite Hx. reflexivity.
  - rewrite (Hs y) by (left; reflexivity). apply IH.
    intros z Hz. apply Hs. right. exact Hz.
Qed.

Lemma new_id_not_matched s x who y :
  ~ In (_id x) (ids s) -> In y s -> by_id_and_owner (_id x) who y = false.
Proof.
  intros Hnew Hy. destruct (by_id_and_owner (_id x) who y) eqn:E; auto.
  apply by_id_and_owner_spec in E as [E _]. exfalso. apply Hnew.
  rewrite <- E. apply in_map. exact Hy.
Qed.

(** Reading back a record that was just appended under a new id. *)
Lemma get_new_record caller s x id :
  ~ In (_id x) (ids s) -> userId x = Some caller ->
  castObjectId (Str id) = Some (_id x) ->
  get_by_id caller id (s ++ [x]) = (mkResponse 200 (FoundExpense x), s ++ [x])
  /\ forall other, other <> caller ->
       get_by_id other id (s ++ [x]) = (not_found, s ++ [x]).
Proof.
  intros Hnew Hu Hc. split.
  - rewrite (get_by_id_spec caller id _ _ Hc), find_app_new; auto.
    + intros y Hy. eapply new_id_not_matched; eauto.
    + apply by_id_and_owner_spec. auto.
  - intros other Hother.
    rewrite (get_by_id_spec other id _ _ Hc), find_app_none; auto.
    + intros y Hy. eapply new_id_not_matched; eauto.
    + apply not_owned_not_matched. rewrite Hu. congruence.
Qed.

(** X5. Round trip: the record that a 201 of [/add] or of
    [/duplicate/:id] returns is the one its owner then gets under its id,
    and any other caller gets 404 for that id. *)
Theorem X5_created_record_is_read_back (caller : ObjectId) (s : Store) :
  (forall body e msg s',
     post_add caller body s = (mkResponse 201 (OneExpense msg e), s') ->
     forall id, castObjectId (Str id) = Some (_id e) ->
       get_by_id caller id s' = (mkResponse 200 (FoundExpense e), s')
       /\ forall other, other <> caller -> get_by_id other id s' = (not_found, s'))
  /\ (forall source now e msg s',
     post_duplicate caller source now s = (mkResponse 201 (OneExpense msg e), s') ->
     forall id, castObjectId (Str id) = Some (_id e) ->
       get_by_id caller id s' = (mkResponse 200 (FoundExpense e), s')
       /\ forall other, other <> caller -> get_by_id other id s' = (not_found, s')).
Proof using Type newObjectId_fresh.
  split.
  - intros body e msg s' H id Hc.
    destruct (post_add_cases caller body s)
      as [(error & Heq)|[(x & Heq)|(x & Heq & Hu & Hnew)]];
      rewrite Heq in H; try discriminate H.
    injection H as _ <- <-. apply get_new_record; auto.
  - intros source now e msg s' H id Hc.
    destruct (post_duplicate_cases caller source now s)
      as [(x & Heq)|[Heq|(oid & o & _ & _ & Heq)]];
      rewrite Heq in H; try discriminate H.
    injection H as _ <- <-. apply get_new_record; auto.
    simpl. apply newObjectId_fresh.
Qed.

(** X6. What [/add] stores: on a 201 the record carries the title,
    description, amount and type of the body and the date as the store
    casts it, its [userId] is the caller and its id is the generated one,
    whatever [_id] or [userId] the body names. *)
Theorem X6_add_stores_the_payload (caller : ObjectId) (body : Value) (s s' : Store)
    (e : Expense) (msg : string) :
  post_add caller body s = (mkResponse 201 (OneExpense msg e), s') ->
  carries body e
  /\ userId e = Some caller
  /\ _id e = newObjectId (ids s)
  /\ s' = s ++ [e].
Proof using Type newObjectId_fresh.
  intros H. destruct (success (safeParse add_requireBody body)) eqn:Hok.
  2:{ unfold post_add in H. rewrite Hok in H. discriminate H. }
  destruct (success_object _ _ _ Hok) as (o & [= ->] & Hshape).
  destruct (success_expenseShape _ _ Hshape) as (t & d & a & v & ty & HV).
  rewrite (post_add_validated caller o t d a v ty s Hok HV) in H.
  destruct (cast_Date "date" v) as [dt|err] eqn:Hdt; [|discriminate H].
  injection H as _ <- <-. destruct HV as [Ht Hd Ha _ Hv _ Hty].
  unfold carries. simpl. repeat split; auto. exists v. auto.
Qed.




Lemma array_size_issue {A} (z : ZodType A) lo hi p xs :
  (length xs < lo)%nat \/ (hi < length xs)%nat ->
  issue_at p (issues (array z lo hi p (Some (Arr xs)))).
Proof.
  intros H. unfold array. cbv zeta.
  destruct (Nat.leb_spec lo (length xs)) as [Hlo|Hlo].
  - destruct (Nat.leb_spec (length xs) hi) as [Hhi|Hhi]; [lia|].
    exists too_big. simpl. left. reflexivity.
  - exists too_small. simpl. left. reflexivity.
Qed.

(** X8. The bounds of the bulk requests: an [expenses] array, or an
    [expenseIds] array, that is empty or has more than 100 elements is
    answered 400 with an issue at the array, and nothing is stored or
    deleted. *)
Theorem X8_bulk_size_is_bounded (caller : ObjectId) (body : Value) (xs : list Value)
    (s : Store) :
  length xs = 0%nat \/ (100 < length xs)%nat ->
  (prop body "expenses" = Some (Arr xs) ->
   exists error,
     post_add_bulk caller body s = (mkResponse 400 (Invalid "Invalid data" error), s)
     /\ issue_at [Key "expenses"] error)
  /\ (prop body "expenseIds" = Some (Arr xs) ->
      exists error,
        delete_bulk caller body s = (mkResponse 400 (Invalid "Invalid data" error), s)
        /\ issue_at [Key "expenseIds"] error).
Proof.
  intros Hlen.
  assert (Hsize : (length xs < 1)%nat \/ (100 < length xs)%nat) by lia.
  split; intros Hx; destruct body as [| | | | |o| |]; try discriminate Hx;
    simpl in Hx.
  - assert (Hi : issue_at [Key "expenses"] (issues (safeParse bulk_requireBody (Obj o)))).
    { unfold safeParse, bulk_requireBody, object. rewrite issues_ap.
      unfold field. cbn [prop]. rewrite Hx. simpl (issues (Success _)).
      apply (array_size_issue _ 1 100 [Key "expenses"] xs Hsize). }
    exists (issues (safeParse bulk_requireBody (Obj o))). split; [|exact Hi].
    destruct Hi as (c & Hc). unfold post_add_bulk.
    rewrite (issue_not_success _ _ Hc). reflexivity.
  - assert (Hi : issue_at [Key "expenseIds"]
                   (issues (safeParse delete_requireBody (Obj o)))).
    { unfold safeParse, delete_requireBody, object. rewrite issues_ap.
      unfold field. cbn [prop]. rewrite Hx. simpl (issues (Success _)).
      apply (array_size_issue _ 1 100 [Key "expenseIds"] xs Hsize). }
    exists (issues (safeParse delete_requireBody (Obj o))). split; [|exact Hi].
    destruct Hi as (c & Hc). unfold delete_bulk.
    rewrite (issue_not_success _ _ Hc). reflexivity.
Qed.

(* ================================================================== *)
(** ** Reading, updating and deleting the caller's own document *)
(* ================================================================== *)

(** X9. [GET /:id] on an id of a document the caller owns answers 200
    with that document and leaves the collection as it was. *)
Theorem X9_get_by_id_returns_own_document (caller : ObjectId) (id : string)
    (oid : ObjectId) (s : Store) (d : Expense) :
  castObjectId (Str id) = Some oid ->
  NoDup (ids s) -> In d s -> _id d = oid -> userId d = Some caller ->
  get_by_id caller id s = (mkResponse 200 (FoundExpense d), s).
Proof.
  intros Hc Hnd Hin Hid Hu.
  destruct (findOne_some oid caller s d Hin Hid Hu) as (x & Hf & _ & _ & _ & Heq).
  rewrite (get_by_id_spec caller id oid s Hc), Hf, (Heq Hnd). reflexivity.
Qed.

Lemma remove_first_spec f s d :
  NoDup s -> List.find f s = Some d ->
  (forall x, In x (remove_first f s) <-> In x s /\ x <> d)
  /\ length s = S (length (remove_first f s)).
Proof.
  induction s as [|y s IH]; simpl; [discriminate|]. intros Hnd Hf.
  apply NoDup_cons_iff in Hnd as [Hy Hnd].
  destruct (f y) eqn:E.
  - injection Hf as <-. split; [|reflexivity].
    intros x. split.
    + intros Hx. split; [right; exact Hx|]. intros ->. contradiction.
    + intros [[->|Hx] Hne]; [congruence|exact Hx].
  - destruct (IH Hnd Hf) as [Hmem Hlen]. split; [|simpl; rewrite <- Hlen; reflexivity].
    intros x. simpl. rewrite Hmem. split.
    + intros [->|[Hx Hne]]; [|auto]. split; [left; reflexivity|].
      intros ->. apply find_some in Hf as [Hin _]. contradiction.
    + intros [[->|Hx] Hne]; auto.
Qed.

(** X10. [DELETE /:id] on an id of a document the caller owns answers 200,
    removes that document and no other, and afterwards the same id is
    answered 404 by get and by a second delete. *)
Theorem X10_delete_by_id_removes_own_document (caller : ObjectId) (id : string)
    (oid : ObjectId) (s : Store) (d : Expense) :
  castObjectId (Str id) = Some oid ->
  NoDup (ids s) -> In d s -> _id d = oid -> userId d = Some caller ->
  exists s',
    delete_by_id caller id s = (mkResponse 200 (Message "Expense deleted successfully"), s')
    /\ (forall x, In x s' <-> In x s /\ x <> d)
    /\ length s = S (length s')
    /\ get_by_id caller id s' = (not_found, s')
    /\ delete_by_id caller id s' = (not_found, s').
Proof.
  intros Hc Hnd Hin Hid Hu.
  destruct (findOne_some oid caller s d Hin Hid Hu) as (x & Hf & _ & _ & _ & Heq).
  rewrite (Heq Hnd) in Hf. clear x Heq.
  exists (remove_first (by_id_and_owner oid caller) s).
  destruct (remove_first_spec _ s d (NoDup_ids s Hnd) Hf) as [Hmem Hlen].
  split; [rewrite (delete_by_id_spec caller id oid s Hc), Hf; reflexivity|].
  split; [exact Hmem|]. split; [exact Hlen|].
  assert (Habs : absent oid (remove_first (by_id_and_owner oid caller) s)
                 \/ owned_by_other caller oid (remove_first (by_id_and_owner oid caller) s)).
  { left. intros Hi. apply in_map_iff in Hi as (x & Hx & Hi).
    apply Hmem in Hi as [Hi Hne]. apply Hne.
    eapply same_id_same_document; eauto. congruence. }
  split.
  - rewrite (get_by_id_spec caller id oid _ Hc), (findOne_none oid caller _ Habs).
    reflexivity.
  - rewrite (delete_by_id_spec caller id oid _ Hc), (findOne_none oid caller _ Habs).
    reflexivity.
Qed.






(** X13. An update never adds or removes a document and never changes an
    id: whatever the body and the outcome, the ids in the collection are
    the same, in the same order, afterwards. *)
Theorem X13_update_keeps_the_ids (caller : ObjectId) (id : string) (body : Value)
    (s : Store) :
  ids (snd (put_by_id caller id body s)) = ids s.
Proof.
  destruct (put_by_id_cases caller id body s)
    as [(error & ->)|[(e & ->)|[->|(oid & u & d & d' & _ & _ & _ & Hf & Ha & ->)]]];
    simpl; auto.
  apply (ids_replace_first _ d d' s Hf (apply_update_id _ _ _ Ha)).
Qed.

Lemma delete_bulk_run caller body xs oids s :
  success (safeParse delete_requireBody body) = true ->
  prop body "expenseIds" = Some (Arr xs) ->
  mapO (cast_ObjectId "_id") xs = Done oids ->
  delete_bulk caller body s
  = (mkResponse 200
       (DeletedMany
          (decimal (length (filter (in_ids_and_owner oids caller) s))
           ++ " expenses deleted successfully")
          (length (filter (in_ids_and_owner oids caller) s))),
     filter (fun d => negb (in_ids_and_owner oids caller d)) s).
Proof.
  intros Hok Hx Hm. unfold delete_bulk. rewrite Hok, Hx. simpl.
  unfold expenseModel_deleteMany, try_catch, bind, lift, ret. rewrite Hm. reflexivity.
Qed.

Lemma filter_none {A} (f : A -> bool) l :
  filter f (filter (fun x => negb (f x)) l) = []
  /\ filter (fun x => negb (f x)) (filter (fun x => negb (f x)) l)
     = filter (fun x => negb (f x)) l.
Proof.
  induction l as [|x l [IH1 IH2]]; simpl; auto.
  destruct (f x) eqn:E; simpl; auto. rewrite E. simpl. rewrite IH1, IH2. auto.
Qed.

(** X14. A bulk delete is idempotent: after a 200, the same request again
    is answered 200 with [deletedCount] 0 and changes nothing. *)
Theorem X14_bulk_delete_is_idempotent (caller : ObjectId) (body : Value) (s : Store) :
  status (fst (delete_bulk caller body s)) = 200%nat ->
  delete_bulk caller body (snd (delete_bulk caller body s))
  = (mkResponse 200 (DeletedMany "0 expenses deleted successfully" 0),
     snd (delete_bulk caller body s)).
Proof.
  intros H200.
  destruct (delete_bulk_cases caller body s)
    as [(error & Heq)|[(e & Heq)|(xs & oids & Hok & Hx & Hm & Heq)]];
    rewrite Heq in H200 |- *; try discriminate H200.
  simpl snd. rewrite (delete_bulk_run caller body xs oids _ Hok Hx Hm).
  destruct (filter_none (in_ids_and_owner oids caller) s) as [-> ->]. reflexivity.
Qed.

Lemma remove_first_is_filter oid caller s :
  NoDup (ids s) ->
  remove_first (by_id_and_owner oid caller) s
  = filter (fun d => negb (in_ids_and_owner [oid] caller d)) s.
Proof.
  assert (Hsame : forall d, in_ids_and_owner [oid] caller d = by_id_and_owner oid caller d).
  { intros d. unfold in_ids_and_owner, by_id_and_owner. simpl.
    rewrite orb_false_r. reflexivity. }
  induction s as [|y s IH]; simpl; auto. intros Hnd.
  unfold ids in Hnd. simpl in Hnd. apply NoDup_cons_iff in Hnd as [Hy Hnd].
  rewrite Hsame. destruct (by_id_and_owner oid caller y) eqn:E; simpl.
  - apply by_id_and_owner_spec in E as [Hid _].
    clear IH Hnd. induction s as [|z s IHs]; simpl; auto.
    rewrite Hsame.
    assert (Hz : by_id_and_owner oid caller z = false).
    { destruct (by_id_and_owner oid caller z) eqn:Ez; auto.
      apply by_id_and_owner_spec in Ez as [Hz _]. exfalso. apply Hy.
      simpl. left. congruence. }
    rewrite Hz. simpl. f_equal. apply IHs. intros Hin. apply Hy. simpl. right. exact Hin.
  - f_equal. apply IH. exact Hnd.
Qed.

(** X15. Deleting one id in bulk and deleting it by id leave the same
    collection (ids being unique), whether the id is the caller's,
    someone else's, absent or malformed. *)
Theorem X15_bulk_delete_of_one_is_delete_by_id (caller : ObjectId) (body : Value)
    (id : string) (s : Store) :
  prop body "expenseIds" = Some (Arr [Str id]) ->
  NoDup (ids s) ->
  snd (delete_bulk caller body s) = snd (delete_by_id caller id s).
Proof.
  intros Hx Hnd.
  assert (Hok : success (safeParse delete_requireBody body) = true).
  { apply (success_delete body [id] Hx). simpl. lia. }
  destruct (castObjectId (Str id)) as [oid|] eqn:Hc.
  - assert (Hm : mapO (cast_ObjectId "_id") [Str id] = Done [oid]).
    { cbn [mapO]. rewrite (cast_ObjectId_Str _ _ _ Hc). reflexivity. }
    rewrite (delete_bulk_run caller body _ _ s Hok Hx Hm).
    rewrite (delete_by_id_spec caller id oid s Hc). simpl.
    rewrite <- (remove_first_is_filter oid caller s Hnd).
    destruct (List.find _ s) eqn:Hf; simpl; auto using remove_first_none.
  - unfold delete_bulk, delete_by_id. rewrite Hok, Hx. simpl.
    unfold expenseModel_deleteMany, expenseModel_findOneAndDelete, try_catch, bind, lift.
    cbn [mapO]. unfold cast_ObjectId. rewrite Hc. reflexivity.
Qed.

Lemma cast_ids_fail strs bad :
  In bad strs -> castObjectId (Str bad) = None ->
  exists e, mapO (cast_ObjectId "_id") (map Str strs) = Thrown e.
Proof.
  intros Hin Hbad. induction strs as [|x strs IH]; [contradiction|].
  cbn [mapO map]. destruct (cast_ObjectId "_id" (Str x)) as [o|e] eqn:E.
  - destruct Hin as [->|Hin].
    + unfold cast_ObjectId in E. rewrite Hbad in E. discriminate E.
    + destruct (IH Hin) as (e & ->). simpl. eauto.
  - simpl. eauto.
Qed.

(** X16. An id that the store cannot cast to an ObjectId is not answered
    404 but 500, by get, delete, duplicate and by an update whose body
    passes validation, and by a bulk delete that lists it; in each case the
    collection is left as it was. *)
Theorem X16_malformed_id_is_a_server_error (caller : ObjectId) (id : string)
    (s : Store) :
  castObjectId (Str id) = None ->
  get_by_id caller id s
  = (mkResponse 500 (Failed "Error fetching expense" (CastError "_id")), s)
  /\ delete_by_id caller id s
     = (mkResponse 500 (Failed "Error deleting expense" (CastError "_id")), s)
  /\ (forall now,
        post_duplicate caller id now s
        = (mkResponse 500 (Failed "Error duplicating expense" (CastError "_id")), s))
  /\ (forall body,
        success (safeParse update_requireBody body) = true ->
        put_by_id caller id body s
        = (mkResponse 500 (Failed "Error updating expense" (CastError "_id")), s))
  /\ (forall body strs,
        prop body "expenseIds" = Some (Arr (map Str strs)) ->
        (length strs <= 100)%nat -> In id strs ->
        exists e,
          delete_bulk caller body s
          = (mkResponse 500 (Failed "Error deleting expenses" e), s)).
Proof.
  intros Hc.
  assert (Hcast : cast_ObjectId "_id" (Str id) = Thrown (CastError "_id")).
  { unfold cast_ObjectId. rewrite Hc. reflexivity. }
  split; [|split; [|split; [|split]]].
  - unfold get_by_id, expenseModel_findOne, try_catch, bind, lift.
    rewrite Hcast. reflexivity.
  - unfold delete_by_id, expenseModel_findOneAndDelete, try_catch, bind, lift.
    rewrite Hcast. reflexivity.
  - intros now. unfold post_duplicate, expenseModel_findOne, try_catch, bind, lift.
    rewrite Hcast. reflexivity.
  - intros body Hok. unfold put_by_id. rewrite Hok. simpl.
    unfold expenseModel_findOneAndUpdate, try_catch, bind, lift.
    rewrite Hcast. reflexivity.
  - intros body strs Hx Hlen Hin.
    assert (Hok : success (safeParse delete_requireBody body) = true).
    { apply (success_delete body strs Hx). split; [|exact Hlen].
      destruct strs; [contradiction|simpl; lia]. }
    destruct (cast_ids_fail strs id Hin Hc) as (e & He).
    exists e. unfold delete_bulk. rewrite Hok, Hx. simpl.
    unfold expenseModel_deleteMany, try_catch, bind, lift. rewrite He. reflexivity.
Qed.

(* ================================================================== *)
(** ** The summary accounts for every document *)
(* ================================================================== *)

Lemma accumulate_totals d accs :
  fold_right (fun a n => (acc_count a + n)%nat) 0%nat (accumulate d accs)
  = S (fold_right (fun a n => (acc_count a + n)%nat) 0%nat accs)
  /\ fold_right (fun a q => acc_sum a + q) 0 (accumulate d accs)
     == fold_right (fun a q => acc_sum a + q) 0 accs + amount d.
Proof.
  induction accs as [|a accs [IHc IHs]]; simpl.
  - split; [reflexivity|ring].
  - destruct (ExpenseType_eqb (acc_type a) (type d)); simpl.
    + split; [reflexivity|ring].
    + split; [rewrite IHc; lia|rewrite IHs; ring].
Qed.

Lemma run_group_totals ds : forall accs,
  fold_right (fun a n => (acc_count a + n)%nat) 0%nat (run_group ds accs)
  = (fold_right (fun a n => (acc_count a + n)%nat) 0%nat accs + length ds)%nat
  /\ fold_right (fun a q => acc_sum a + q) 0 (run_group ds accs)
     == fold_right (fun a q => acc_sum a + q) 0 accs + sum_amounts ds.
Proof.
  induction ds as [|d ds IH]; intros accs; simpl.
  - split; [lia|ring].
  - destruct (IH (accumulate d accs)) as [Hc Hs].
    destruct (accumulate_totals d accs) as [Ac As].
    split; [rewrite Hc, Ac; lia|rewrite Hs, As; ring].
Qed.

Lemma group_by_type_totals ds :
  counted (group_by_type ds) = length ds
  /\ totalled (group_by_type ds) == sum_amounts ds.
Proof.
  unfold counted, totalled, group_by_type. fold (run_group ds []).
  destruct (run_group_totals ds []) as [Hc Hs]. simpl in Hc, Hs.
  rewrite <- Hc, <- (Qplus_0_l (sum_amounts ds)), <- Hs.
  generalize (run_group ds []). intros accs.
  induction accs as [|a accs [IHc IHs]]; simpl; split; try reflexivity.
  - rewrite IHc. reflexivity.
  - rewrite IHs. reflexivity.
Qed.



(* ================================================================== *)
(** ** The listing handlers *)
(* ================================================================== *)

Lemma date_leb_total a b : date_leb a b = false -> date_leb b a = true.
Proof.
  destruct a as [x|], b as [y|]; simpl; try discriminate; auto.
  rewrite Z.leb_gt, Z.leb_le. lia.
Qed.

Lemma date_leb_trans a b c :
  date_leb a b = true -> date_leb b c = true -> date_leb a c = true.
Proof.
  destruct a as [x|], b as [y|], c as [z|]; simpl; try discriminate; auto.
  rewrite !Z.leb_le. lia.
Qed.

Lemma insert_date_desc_perm d l : Permutation (insert_date_desc d l) (d :: l).
Proof.
  induction l as [|x l IH]; simpl; auto.
  destruct (date_leb (date x) (date d)); auto.
  rewrite IH. apply perm_swap.
Qed.

Lemma sort_date_desc_perm l : Permutation (sort_date_desc l) l.
Proof.
  induction l as [|x l IH]; simpl; auto.
  rewrite insert_date_desc_perm. auto.
Qed.

Lemma insert_date_desc_sorted d l : latest_first l -> latest_first (insert_date_desc d l).
Proof.
  unfold latest_first. induction 1 as [|x l Hs IH Hx]; simpl.
  - repeat constructor.
  - destruct (date_leb (date x) (date d)) eqn:E.
    + constructor; [constructor; auto|]. constructor; auto.
      eapply Forall_impl; [|exact Hx]. simpl. intros y Hy.
      eapply date_leb_trans; eauto.
    + constructor; auto.
      eapply Permutation_Forall; [symmetry; apply insert_date_desc_perm|].
      constructor; auto. apply date_leb_total. exact E.
Qed.

Lemma sort_date_desc_sorted l : latest_first (sort_date_desc l).
Proof.
  induction l as [|x l IH]; simpl.
  - constructor.
  - apply insert_date_desc_sorted; auto.
Qed.

Lemma find_sort_date_run (f : Filter) (msg : string) s :
  try_catch
    (expenses <- expenseModel_find_sort_date f ;;
     ret (mkResponse 200 (Expenses expenses)))
    (fun error => mkResponse 500 (Failed msg error)) s
  = (mkResponse 200 (Expenses (listed f s)), s).
Proof. reflexivity. Qed.

Lemma listed_spec f s :
  Permutation (listed f s) (filter (matches f) s)
  /\ latest_first (listed f s)
  /\ (forall d, In d (listed f s) <-> In d s /\ matches f d = true).
Proof.
  unfold listed. split; [apply sort_date_desc_perm|].
  split; [apply sort_date_desc_sorted|].
  intros d. rewrite <- filter_In. split; apply Permutation_in;
    [|symmetry]; apply sort_date_desc_perm.
Qed.

Lemma matches_all caller d :
  matches (all_filter caller) d = true <-> userId d = Some caller.
Proof.
  unfold matches, all_filter. simpl. rewrite !andb_true_r. apply owned_by_spec.
Qed.

Lemma matches_range caller lo hi d :
  matches (range_filter caller lo hi) d = true
  <-> userId d = Some caller /\ exists t, date d = Some t /\ (lo <= t <= hi)%Z.
Proof.
  unfold matches, range_filter. simpl. rewrite !andb_true_iff, owned_by_spec.
  destruct (date d) as [t|].
  - rewrite !Z.leb_le. split.
    + intros [[[Hu _] Hlo] Hhi]. split; [exact Hu|]. exists t. auto.
    + intros [Hu (t' & [= <-] & Hlo & Hhi)]. auto.
  - split; [intros [[_ H] _]; discriminate H|].
    intros [_ (t & H & _)]. discriminate H.
Qed.

Lemma matches_recent caller now d :
  matches (recent_filter caller now) d = true
  <-> userId d = Some caller /\ exists t, date d = Some t /\ (thirtyDaysBefore now <= t)%Z.
Proof.
  unfold matches, recent_filter. simpl. rewrite !andb_true_iff, owned_by_spec.
  destruct (date d) as [t|].
  - rewrite Z.leb_le. split.
    + intros [[[Hu _] Hlo] _]. split; [exact Hu|]. exists t. auto.
    + intros [Hu (t' & [= <-] & Hlo)]. auto.
  - split; [intros [[_ H] _]; discriminate H|].
    intros [_ (t & H & _)]. discriminate H.
Qed.

(** X18. [GET /all] answers 200 with the caller's documents, all of them
    and no others, the latest date first and documents without a date
    last; the collection is left as it was. *)
Theorem X18_all_lists_the_callers_documents (caller : ObjectId) (s : Store) :
  exists expenses,
    get_all caller s = (mkResponse 200 (Expenses expenses), s)
    /\ Permutation expenses (filter (owned_by caller) s)
    /\ latest_first expenses
    /\ (forall d, In d expenses <-> In d s /\ userId d = Some caller).
Proof.
  exists (listed (all_filter caller) s).
  destruct (listed_spec (all_filter caller) s) as (Hp & Hs & Hm).
  split; [reflexivity|]. split; [|split; [exact Hs|]].
  - rewrite Hp. erewrite filter_ext; [reflexivity|].
    intros d. unfold matches, all_filter. simpl. rewrite !andb_true_r. reflexivity.
  - intros d. rewrite Hm, matches_all. reflexivity.
Qed.

(** X19. [GET /recent] answers 200 with exactly the caller's documents
    dated at or after the day thirty days before the call, the latest
    first; a document without a date is never listed. *)
Theorem X19_recent_lists_the_last_thirty_days (caller : ObjectId) (now : Z) (s : Store) :
  exists expenses,
    get_recent caller now s = (mkResponse 200 (Expenses expenses), s)
    /\ latest_first expenses
    /\ (forall d, In d expenses <->
          In d s /\ userId d = Some caller
          /\ exists t, date d = Some t /\ (thirtyDaysBefore now <= t)%Z)
    /\ length expenses = length (filter (matches (recent_filter caller now)) s).
Proof.
  exists (listed (recent_filter caller now) s).
  destruct (listed_spec (recent_filter caller now) s) as (Hp & Hs & Hm).
  split; [reflexivity|]. split; [exact Hs|]. split.
  - intros d. rewrite Hm, matches_recent. reflexivity.
  - apply Permutation_length. exact Hp.
Qed.

Lemma range_query_data query a b lo hi :
  prop query "startDate" = Some a -> newDate a = Some lo ->
  prop query "endDate" = Some b -> newDate b = Some hi ->
  safeParse range_querySchema query = Success (mkDateRange lo hi).
Proof.
  intros Ha Hlo Hb Hhi. destruct query as [| | | | |o| |]; try discriminate Ha.
  unfold safeParse, range_querySchema, object, field.
  rewrite Ha, Hb. simpl. rewrite Hlo, Hhi. reflexivity.
Qed.

(** X20. [GET /date-range] with a start and an end that are dates answers
    200 with exactly the caller's documents dated from the start to the
    end, both included, the latest first; when the start is after the end
    the list is empty. *)
Theorem X20_date_range_lists_the_range (caller : ObjectId) (query a b : Value)
    (lo hi : Z) (s : Store) :
  prop query "startDate" = Some a -> newDate a = Some lo ->
  prop query "endDate" = Some b -> newDate b = Some hi ->
  exists expenses,
    get_date_range caller query s = (mkResponse 200 (Expenses expenses), s)
    /\ latest_first expenses
    /\ (forall d, In d expenses <->
          In d s /\ userId d = Some caller
          /\ exists t, date d = Some t /\ (lo <= t <= hi)%Z)
    /\ ((hi < lo)%Z -> expenses = []).
Proof.
  intros Ha Hlo Hb Hhi.
  exists (listed (range_filter caller lo hi) s).
  destruct (listed_spec (range_filter caller lo hi) s) as (Hp & Hs & Hm).
  assert (Hmem : forall d, In d (listed (range_filter caller lo hi) s) <->
            In d s /\ userId d = Some caller
            /\ exists t, date d = Some t /\ (lo <= t <= hi)%Z).
  { intros d. rewrite Hm, matches_range. reflexivity. }
  split; [|split; [exact Hs|split; [exact Hmem|]]].
  - unfold get_date_range.
    rewrite (range_query_data query a b lo hi Ha Hlo Hb Hhi). reflexivity.
  - intros Hinv. destruct (listed _ s) as [|d l] eqn:E; auto. exfalso.
    destruct (proj1 (Hmem d) (or_introl eq_refl)) as (_ & _ & t & _ & H). lia.
Qed.

Lemma issues_coerce_date_missing p v :
  v = None \/ (exists x, v = Some x /\ newDate x = None) ->
  issues (coerce_date newDate p v) = [mkIssue invalid_date p].
Proof.
  intros [->|(x & -> & Hx)]; simpl; [reflexivity|]. rewrite Hx. reflexivity.
Qed.

(** X21. [GET /date-range] needs both dates: a query without [startDate]
    or [endDate], or with one that is not a date, is answered 400 with an
    [invalid_date] issue at that parameter. *)
Theorem X21_date_range_needs_both_dates (caller : ObjectId) (o : Object) (s : Store) :
  let missing k :=
    lookup k o = None \/ exists x, lookup k o = Some x /\ newDate x = None in
  missing "startDate" \/ missing "endDate" ->
  exists error,
    get_date_range caller (Obj o) s
    = (mkResponse 400 (Invalid "Invalid date range" error), s)
    /\ (missing "startDate" -> In (mkIssue invalid_date [Key "startDate"]) error)
    /\ (missing "endDate" -> In (mkIssue invalid_date [Key "endDate"]) error).
Proof.
  intros missing Hbad.
  assert (Hi : issues (safeParse range_querySchema (Obj o))
               = issues (coerce_date newDate [Key "startDate"] (lookup "startDate" o))
                 ++ issues (coerce_date newDate [Key "endDate"] (lookup "endDate" o))).
  { unfold safeParse, range_querySchema, object. rewrite !issues_ap. reflexivity. }
  assert (Hs : missing "startDate" ->
               In (mkIssue invalid_date [Key "startDate"])
                  (issues (safeParse range_querySchema (Obj o)))).
  { intros H. rewrite Hi, (issues_coerce_date_missing _ _ H).
    apply in_or_app. left. left. reflexivity. }
  assert (He : missing "endDate" ->
               In (mkIssue invalid_date [Key "endDate"])
                  (issues (safeParse range_querySchema (Obj o)))).
  { intros H. rewrite Hi, (issues_coerce_date_missing _ _ H).
    apply in_or_app. right. left. reflexivity. }
  exists (issues (safeParse range_querySchema (Obj o))).
  split; [|split; assumption].
  assert (Hno : success (safeParse range_querySchema (Obj o)) = false).
  { destruct Hbad as [H|H]; [apply Hs in H|apply He in H];
      eapply issue_not_success; eauto. }
  unfold get_date_range.
  destruct (safeParse range_querySchema (Obj o)) as [data|error]; [discriminate Hno|].
  reflexivity.
Qed.

(** X22. The listings are consistent: every document that [/recent] or
    [/date-range] returns is one that [/all] returns, and [/all] returns as
    many documents as the summary without dates counts. *)
Theorem X22_listings_are_consistent (caller : ObjectId) (s : Store) :
  exists all,
    get_all caller s = (mkResponse 200 (Expenses all), s)
    /\ (forall now l,
          get_recent caller now s = (mkResponse 200 (Expenses l), s) -> incl l all)
    /\ (forall query l,
          get_date_range caller query s = (mkResponse 200 (Expenses l), s) -> incl l all)
    /\ (forall breakdown ti te bal,
          get_stats_summary caller (Obj []) s
          = (mkResponse 200 (Summary ti te bal breakdown), s) ->
          counted breakdown = length all).
Proof.
  exists (listed (all_filter caller) s).
  destruct (listed_spec (all_filter caller) s) as (Hp & _ & Hm).
  split; [reflexivity|]. split; [|split].
  - intros now l [= <-] d Hd.
    apply (listed_spec (recent_filter caller now) s) in Hd as [Hd Hmt].
    apply matches_recent in Hmt as [Hu _].
    apply Hm. split; [exact Hd|]. apply matches_all. exact Hu.
  - intros query l H d Hd. unfold get_date_range in H.
    destruct (safeParse range_querySchema query) as [data|error]; [|discriminate H].
    injection H as <-.
    apply (listed_spec (range_filter caller _ _) s) in Hd as [Hd Hmt].
    apply matches_range in Hmt as [Hu _].
    apply Hm. split; [exact Hd|]. apply matches_all. exact Hu.
  - intros breakdown ti te bal H.
    rewrite (get_stats_summary_spec caller (Obj []) (mkRangeQuery None None) s eq_refl) in H.
    injection H as _ _ _ <-.
    rewrite (proj1 (group_by_type_totals _)).
    rewrite (Permutation_length Hp). reflexivity.
Qed.

(* ================================================================== *)
(** ** Category statistics *)
(* ================================================================== *)

Lemma accumulate_category_forget d accs :
  map forget (accumulate_category d accs) = accumulate d (map forget accs).
Proof.
  induction accs as [|a accs IH]; simpl; auto.
  destruct (ExpenseType_eqb (cat_type a) (type d)); simpl; [reflexivity|].
  rewrite IH. reflexivity.
Qed.

Lemma run_categories_forget ds : forall accs,
  map forget (run_categories ds accs) = run_group ds (map forget accs).
Proof.
  induction ds as [|d ds IH]; intros accs; simpl; auto.
  rewrite IH, accumulate_category_forget. reflexivity.
Qed.

(** The categories before sorting are the groups of the summary with a
    largest and a smallest amount added. *)
Lemma group_categories_as_groups ds :
  map as_group (group_categories ds) = group_by_type ds.
Proof.
  unfold group_categories, group_by_type.
  fold (run_categories ds []). fold (run_group ds []).
  change (@nil Acc) with (map forget []). rewrite <- run_categories_forget.
  rewrite !map_map. reflexivity.
Qed.











Lemma insert_total_desc_perm g l : Permutation (insert_total_desc g l) (g :: l).
Proof.
  induction l as [|x l IH]; simpl; auto.
  destruct (Qle_bool _ _); auto.
  rewrite IH. apply perm_swap.
Qed.

Lemma sort_total_desc_perm l : Permutation (sort_total_desc l) l.
Proof.
  induction l as [|x l IH]; simpl; auto.
  rewrite insert_total_desc_perm. auto.
Qed.



Lemma get_stats_categories_run caller s :
  get_stats_categories caller s
  = (mkCategoriesResponse 200
       (Categories (sort_total_desc (group_categories (filter (owned_by caller) s)))),
     s).
Proof.
  unfold get_stats_categories, expenseModel_aggregate_categories, try_catch, bind, ret.
  erewrite filter_ext; [reflexivity|].
  intros d. unfold matches. simpl. rewrite !andb_true_r. reflexivity.
Qed.



(** X24. The categories agree with the summary: read as groups (type,
    total, count, average), the categories of a caller are the breakdown
    of the caller's summary without dates, up to their order. *)
Theorem X24_categories_agree_with_summary (caller : ObjectId) (s : Store) :
  exists categories totalIncome totalExpenses balance breakdown,
    get_stats_categories caller s
    = (mkCategoriesResponse 200 (Categories categories), s)
    /\ get_stats_summary caller (Obj []) s
       = (mkResponse 200 (Summary totalIncome totalExpenses balance breakdown), s)
    /\ Permutation (map as_group categories) breakdown.
Proof.
  eexists _, _, _, _, _. split; [apply get_stats_categories_run|].
  split.
  - rewrite (get_stats_summary_spec caller (Obj []) (mkRangeQuery None None) s eq_refl).
    cbv zeta. reflexivity.
  - rewrite (Permutation_map as_group (sort_total_desc_perm _)),
      group_categories_as_groups.
    erewrite filter_ext; [reflexivity|].
    intros d. unfold matches, summary_filter. simpl. rewrite !andb_true_r. reflexivity.
Qed.




End Router.

(* ================================================================== *)
(** ** The handlers on the sample runtime *)
(* ================================================================== *)

Import Sample.

Lemma Sample_newObjectId_fresh : forall used, ~ In (Sample.newObjectId used) used.
Proof.
  intros used Hin.
  assert (Hle : forall x, In x used -> (x <= fold_right N.max 0 used)%N).
  { clear Hin. induction used as [|y used IH]; simpl; [contradiction|].
    intros x [->|Hx]; [lia|]. specialize (IH x Hx). lia. }
  specialize (Hle _ Hin). unfold Sample.newObjectId in Hle. lia.
Qed.




(** Alice hands her rent to Bob with an update. *)
Lemma C3_witness :
  put_by_id ToDate castDate castObjectId alice id_A (Obj [("userId", Str id_bob)]) store
  = (mkResponse 200
       (OneExpense "Expense updated successfully"
          (mkExpense 10%N "Rent" "Flat" 1000 (Some 1700000000000%Z) T_expense (Some bob))),
     [mkExpense 10%N "Rent" "Flat" 1000 (Some 1700000000000%Z) T_expense (Some bob);
      salary]).
Proof.
  assert (Hnd : NoDup (ids store)).
  { repeat constructor; simpl; intuition discriminate. }
  exact (proj1 (proj2 (C3_update_writes_unvalidated_userId ToDate castDate castObjectId
                         alice id_A id_bob 10%N bob store rent eq_refl eq_refl Hnd
                         (or_introl eq_refl) eq_refl eq_refl))).
Defined.

(** A rent of amount 0, and a payload of type "transfer". *)
Lemma C4_witness :
  (exists error,
     post_add ToDate castDate castObjectId newObjectId alice free_rent store
     = (mkResponse 400 (Invalid "Invalid data" error), store)
     /\ issue_at [Key "amount"] error)
  /\ (exists error,
     post_add_bulk ToDate castDate castObjectId newObjectId alice
       (Obj [("expenses", Arr [new_rent; transfer])]) store
     = (mkResponse 400 (Invalid "Invalid data" error), store)
     /\ issue_at [Key "expenses"; Idx 1; Key "type"] error).
Proof.
  destruct (C4_invalid_creation_rejected ToDate castDate castObjectId newObjectId
              alice store) as [Hadd Hbulk].
  assert (Ha : bad_amount free_rent).
  { exists 0. split; [reflexivity|]. apply Qle_refl. }
  assert (Ht : bad_type transfer).
  { exists (Str "transfer"). split; [reflexivity|split; discriminate]. }
  split.
  - destruct (Hadd free_rent (or_introl Ha)) as (error & Heq & Hamount & _).
    exists error. split; [exact Heq|exact (Hamount Ha)].
  - destruct (Hbulk (Obj [("expenses", Arr [new_rent; transfer])]) [new_rent; transfer]
                1%nat transfer eq_refl eq_refl (or_intror Ht)) as (error & Heq & _ & Htype).
    exists error. split; [exact Heq|exact (Htype Ht)].
Defined.




(** The claim as stated fails: [limit=0.5] lies outside 1..50 and is not
    answered 400. *)
Lemma C8_counterexample :
  Number ToNumber (Str "0.5") = Some (5 # 10)
  /\ ~ (1 <= 5 # 10)
  /\ status (fst (get_top ToNumber limit_fraction carol (Obj [("limit", Str "0.5")]) three))
     <> 400%nat.
Proof.
  split; [reflexivity|]. split.
  - unfold Qle. simpl. lia.
  - apply (get_top_accepts ToNumber limit_fraction carol [("limit", Str "0.5")] None
             (Str "0.5") (5 # 10) three); try reflexivity.
    unfold Qle. simpl. lia.
Qed.

(** [limit=2] over Carol's amounts 5, 50 and 500 gives 500 and 50; without
    a limit all three come back; [limit=51] and [limit=0] are refused. *)
Lemma C8_witness :
  map amount
    match json (fst (get_top ToNumber limit_fraction carol (Obj [("limit", Str "2")]) three))
    with Expenses l => l | _ => [] end
  = [500; 50]
  /\ get_top ToNumber limit_fraction carol (Obj []) three
     = (mkResponse 200 (Expenses (sort_amount_desc three)), three)
  /\ (exists error,
        get_top ToNumber limit_fraction carol (Obj [("limit", Str "51")]) three
        = (mkResponse 400 (Invalid "Invalid query parameters" error), three))
  /\ (exists error,
        get_top ToNumber limit_fraction carol (Obj [("limit", Str "0")]) three
        = (mkResponse 400 (Invalid "Invalid query parameters" error), three)).
Proof.
  split; [|split; [|split]].
  - assert (Hn : (1 <= 2 <= 50)%nat) by lia.
    rewrite (proj1 (proj2 (C8_top ToNumber limit_fraction carol [("limit", Str "2")] None
                             three eq_refl))
               (Str "2") 2 2%nat eq_refl eq_refl (Qeq_refl 2) Hn).
    reflexivity.
  - rewrite (proj1 (C8_top ToNumber limit_fraction carol [] None three eq_refl) eq_refl).
    reflexivity.
  - apply (proj1 (proj2 (proj2 (C8_top ToNumber limit_fraction carol
                                  [("limit", Str "51")] None three eq_refl)))
             (Str "51") eq_refl).
    right. exists 51. split; [reflexivity|]. right. reflexivity.
  - apply (proj1 (proj2 (proj2 (C8_top ToNumber limit_fraction carol
                                  [("limit", Str "0")] None three eq_refl)))
             (Str "0") eq_refl).
    right. exists 0. split; [reflexivity|]. left. apply Qle_refl.
Defined.

(** Alice has no document in Carol's ledger: her summary there is empty. *)
Lemma C9_witness :
  get_stats_summary ToDate alice (Obj []) ledger
  = (mkResponse 200 (Summary 0 0 0 []), ledger).
Proof.
  apply (C9_empty_summary ToDate alice (Obj []) (mkRangeQuery None None) ledger eq_refl).
  intros d [<-|[<-|[]]] [Hu _]; discriminate Hu.
Defined.

(** Alice updates her rent with the empty body. *)
Lemma C10_witness :
  put_by_id ToDate castDate castObjectId alice id_A (Obj []) store
  = (mkResponse 200 (OneExpense "Expense updated successfully" rent), store).
Proof.
  destruct (C10_empty_update_is_identity ToDate castDate castObjectId alice id_A 10%N
              store rent eq_refl (or_introl eq_refl) eq_refl eq_refl)
    as (_ & d' & Heq & _ & _ & _ & Hsame).
  rewrite Heq, Hsame; [reflexivity|].
  repeat constructor; simpl; intuition discriminate.
Defined.

(* ================================================================== *)
(** ** The further properties on the sample runtime *)
(* ================================================================== *)

Lemma Sample_store_NoDup : NoDup (ids store).
Proof. repeat constructor; simpl; intuition discriminate. Qed.


(** Alice adds a rent to the sample store: the ids stay distinct. *)
Lemma X1_witness :
  NoDup (ids (snd (run_write ToDate castDate castObjectId newObjectId alice
                     (Add new_rent) store)))
  /\ NoDup (ids (snd (run_write ToDate castDate castObjectId newObjectId alice
                        (Duplicate id_A 1800000000000%Z) store))).
Proof.
  split;
    apply (X1_writes_keep_ids_unique ToDate castDate castObjectId newObjectId
             Sample_newObjectId_fresh); exact Sample_store_NoDup.
Defined.

(** Alice names Bob's salary in a bulk delete and in an update: it stays. *)
Lemma X2_witness :
  In salary (snd (run_write ToDate castDate castObjectId newObjectId alice
                    (DeleteBulk (Obj [("expenseIds", Arr [Str id_A; Str id_B])])) store))
  /\ In salary (snd (run_write ToDate castDate castObjectId newObjectId alice
                       (Put id_B cheaper) store)).
Proof.
  split;
    apply (X2_writes_keep_others_documents ToDate castDate castObjectId newObjectId
             Sample_newObjectId_fresh);
    solve [right; left; reflexivity | discriminate].
Defined.


(** A rent of amount 0 is refused with 400, a delete of Bob's salary by
    Alice with 404 and a delete of a malformed id with 500: the store is
    as before. *)
Lemma X4_witness :
  snd (run_write ToDate castDate castObjectId newObjectId alice (Add free_rent) store)
  = store
  /\ snd (run_write ToDate castDate castObjectId newObjectId alice (Delete id_B) store)
     = store
  /\ snd (run_write ToDate castDate castObjectId newObjectId alice (Delete "rent") store)
     = store.
Proof.
  split; [|split].
  - apply (proj1 (X4_refused_write_changes_nothing ToDate castDate castObjectId
                    newObjectId Sample_newObjectId_fresh alice (Add free_rent) store)).
    left. reflexivity.
  - apply (proj1 (X4_refused_write_changes_nothing ToDate castDate castObjectId
                    newObjectId Sample_newObjectId_fresh alice (Delete id_B) store)).
    right. reflexivity.
  - apply (proj2 (X4_refused_write_changes_nothing ToDate castDate castObjectId
                    newObjectId Sample_newObjectId_fresh alice (Delete "rent") store)).
    + intros body. discriminate.
    + reflexivity.
Defined.

(** The rent Alice adds gets id C: she reads it back, Bob does not. *)
Lemma X5_witness :
  post_add ToDate castDate castObjectId newObjectId alice new_rent store
  = (mkResponse 201 (OneExpense "Expense added successfully" rent_C), store ++ [rent_C])
  /\ get_by_id castObjectId alice id_C (store ++ [rent_C])
     = (mkResponse 200 (FoundExpense rent_C), store ++ [rent_C])
  /\ get_by_id castObjectId bob id_C (store ++ [rent_C]) = (not_found, store ++ [rent_C]).
Proof.
  split; [reflexivity|].
  destruct (proj1 (X5_created_record_is_read_back ToDate castDate castObjectId newObjectId
                     Sample_newObjectId_fresh alice store)
              new_rent rent_C "Expense added successfully" (store ++ [rent_C]) eq_refl
              id_C eq_refl)
    as [Hown Hother].
  split; [exact Hown|]. apply Hother. discriminate.
Defined.

(** The record stored for [new_rent] carries its fields and Alice's id. *)
Lemma X6_witness :
  carries castDate new_rent rent_C
  /\ userId rent_C = Some alice
  /\ _id rent_C = newObjectId (ids store).
Proof.
  destruct (X6_add_stores_the_payload ToDate castDate castObjectId newObjectId
              Sample_newObjectId_fresh alice new_rent store (store ++ [rent_C]) rent_C
              "Expense added successfully" eq_refl) as (Hc & Hu & Hid & _).
  split; [exact Hc|]. split; [exact Hu|exact Hid].
Defined.


(** An empty bulk is refused, for creation and for deletion. *)
Lemma X8_witness :
  (exists error,
     post_add_bulk ToDate castDate castObjectId newObjectId alice
       (Obj [("expenses", Arr [])]) store
     = (mkResponse 400 (Invalid "Invalid data" error), store)
     /\ issue_at [Key "expenses"] error)
  /\ (exists error,
        delete_bulk castObjectId alice (Obj [("expenseIds", Arr [])]) store
        = (mkResponse 400 (Invalid "Invalid data" error), store)
        /\ issue_at [Key "expenseIds"] error).
Proof.
  split.
  - apply (proj1 (X8_bulk_size_is_bounded ToDate castDate castObjectId newObjectId alice
                    (Obj [("expenses", Arr [])]) [] store (or_introl eq_refl))).
    reflexivity.
  - apply (proj2 (X8_bulk_size_is_bounded ToDate castDate castObjectId newObjectId alice
                    (Obj [("expenseIds", Arr [])]) [] store (or_introl eq_refl))).
    reflexivity.
Defined.

(** Alice reads her rent. *)
Lemma X9_witness :
  get_by_id castObjectId alice id_A store = (mkResponse 200 (FoundExpense rent), store).
Proof.
  apply (X9_get_by_id_returns_own_document castObjectId alice id_A 10%N store rent);
    try reflexivity.
  - exact Sample_store_NoDup.
  - left. reflexivity.
Defined.

(** Alice deletes her rent: Bob's salary is what is left. *)
Lemma X10_witness :
  exists s',
    delete_by_id castObjectId alice id_A store
    = (mkResponse 200 (Message "Expense deleted successfully"), s')
    /\ In salary s' /\ ~ In rent s'
    /\ get_by_id castObjectId alice id_A s' = (not_found, s').
Proof.
  destruct (X10_delete_by_id_removes_own_document castObjectId alice id_A 10%N store rent
              eq_refl Sample_store_NoDup (or_introl eq_refl) eq_refl eq_refl)
    as (s' & Hdel & Hin & _ & Hget & _).
  exists s'. split; [exact Hdel|]. split; [|split; [|exact Hget]].
  - apply Hin. split; [right; left; reflexivity|discriminate].
  - intros H. apply Hin in H as [_ H]. apply H. reflexivity.
Defined.



(** Alice deletes ids A and B twice: the second time nothing is deleted. *)
Lemma X14_witness :
  delete_bulk castObjectId alice (Obj [("expenseIds", Arr [Str id_A; Str id_B])])
    (snd (delete_bulk castObjectId alice
            (Obj [("expenseIds", Arr [Str id_A; Str id_B])]) store))
  = (mkResponse 200 (DeletedMany "0 expenses deleted successfully" 0),
     snd (delete_bulk castObjectId alice
            (Obj [("expenseIds", Arr [Str id_A; Str id_B])]) store)).
Proof.
  apply (X14_bulk_delete_is_idempotent castObjectId alice
           (Obj [("expenseIds", Arr [Str id_A; Str id_B])]) store).
  reflexivity.
Defined.

(** Deleting id A in bulk or by id leaves the same store. *)
Lemma X15_witness :
  snd (delete_bulk castObjectId alice (Obj [("expenseIds", Arr [Str id_A])]) store)
  = snd (delete_by_id castObjectId alice id_A store).
Proof.
  apply (X15_bulk_delete_of_one_is_delete_by_id castObjectId alice
           (Obj [("expenseIds", Arr [Str id_A])]) id_A store eq_refl).
  exact Sample_store_NoDup.
Defined.

(** The id "rent" is no ObjectId. *)
Lemma X16_witness :
  get_by_id castObjectId alice "rent" store
  = (mkResponse 500 (Failed "Error fetching expense" (CastError "_id")), store)
  /\ put_by_id ToDate castDate castObjectId alice "rent" cheaper store
     = (mkResponse 500 (Failed "Error updating expense" (CastError "_id")), store)
  /\ exists e,
       delete_bulk castObjectId alice (Obj [("expenseIds", Arr [Str id_A; Str "rent"])]) store
       = (mkResponse 500 (Failed "Error deleting expenses" e), store).
Proof.
  destruct (X16_malformed_id_is_a_server_error ToDate castDate castObjectId newObjectId
              alice "rent" store eq_refl) as (Hget & _ & _ & Hput & Hbulk).
  split; [exact Hget|]. split; [apply Hput; reflexivity|].
  apply (Hbulk (Obj [("expenseIds", Arr [Str id_A; Str "rent"])]) [id_A; "rent"]).
  - reflexivity.
  - simpl. lia.
  - right. left. reflexivity.
Defined.


(** Alice's listing of the sample store has her rent and not Bob's salary. *)
Lemma X18_witness :
  exists expenses,
    get_all alice store = (mkResponse 200 (Expenses expenses), store)
    /\ In rent expenses /\ ~ In salary expenses.
Proof.
  destruct (X18_all_lists_the_callers_documents alice store)
    as (expenses & Heq & _ & _ & Hin).
  exists expenses. split; [exact Heq|]. split.
  - apply Hin. split; [left|]; reflexivity.
  - intros H. apply Hin in H as [_ H]. discriminate H.
Defined.

(** On 20 November 2023 Carol's recent expenses have the hotel and not
    the coffee of 1 October nor the gift without a date. *)
Lemma X19_witness :
  exists expenses,
    get_recent thirtyDaysBefore carol 1700500000000%Z diary
    = (mkResponse 200 (Expenses expenses), diary)
    /\ In hotel expenses /\ ~ In coffee expenses /\ ~ In gift expenses
    /\ length expenses = 2%nat.
Proof.
  destruct (X19_recent_lists_the_last_thirty_days thirtyDaysBefore carol 1700500000000%Z
              diary) as (expenses & Heq & _ & Hin & Hlen).
  exists expenses. split; [exact Heq|]. split; [|split; [|split; [|exact Hlen]]].
  - apply Hin. split; [right; right; right; left; reflexivity|].
    split; [reflexivity|]. exists 1700438400000%Z. split; [reflexivity|].
    unfold thirtyDaysBefore. lia.
  - intros H. apply Hin in H as (_ & _ & t & Ht & Hle).
    injection Ht as <-. unfold thirtyDaysBefore in Hle. lia.
  - intros H. apply Hin in H as (_ & _ & t & Ht & _). discriminate Ht.
Defined.

(** Carol's expenses from 1 to 15 November 2023 have the train and not
    the hotel; a range that ends before it starts is empty. *)
Lemma X20_witness :
  (exists expenses,
     get_date_range ToDate_query carol
       (Obj [("startDate", Str "2023-11-01"); ("endDate", Str "2023-11-15")]) diary
     = (mkResponse 200 (Expenses expenses), diary)
     /\ In train expenses /\ ~ In hotel expenses)
  /\ get_date_range ToDate_query carol
       (Obj [("startDate", Str "2023-11-15"); ("endDate", Str "2023-11-01")]) diary
     = (mkResponse 200 (Expenses []), diary).
Proof.
  split.
  - destruct (X20_date_range_lists_the_range ToDate_query carol
                (Obj [("startDate", Str "2023-11-01"); ("endDate", Str "2023-11-15")])
                (Str "2023-11-01") (Str "2023-11-15") 1698796800000%Z 1700006400000%Z
                diary eq_refl eq_refl eq_refl eq_refl)
      as (expenses & Heq & _ & Hin & _).
    exists expenses. split; [exact Heq|]. split.
    + apply Hin. split; [right; left; reflexivity|].
      split; [reflexivity|]. exists 1699574400000%Z. split; [reflexivity|lia].
    + intros H. apply Hin in H as (_ & _ & t & Ht & Hle).
      injection Ht as <-. lia.
  - destruct (X20_date_range_lists_the_range ToDate_query carol
                (Obj [("startDate", Str "2023-11-15"); ("endDate", Str "2023-11-01")])
                (Str "2023-11-15") (Str "2023-11-01") 1700006400000%Z 1698796800000%Z
                diary eq_refl eq_refl eq_refl eq_refl)
      as (expenses & Heq & _ & _ & Hempty).
    rewrite Heq, Hempty; [reflexivity|lia].
Defined.

(** A range without an end, and one whose start is no date. *)
Lemma X21_witness :
  (exists error,
     get_date_range ToDate_query carol (Obj [("startDate", Str "2023-11-01")]) diary
     = (mkResponse 400 (Invalid "Invalid date range" error), diary)
     /\ In (mkIssue invalid_date [Key "endDate"]) error)
  /\ (exists error,
        get_date_range ToDate_query carol
          (Obj [("startDate", Str "yesterday"); ("endDate", Str "2023-11-15")]) diary
        = (mkResponse 400 (Invalid "Invalid date range" error), diary)
        /\ In (mkIssue invalid_date [Key "startDate"]) error).
Proof.
  split.
  - destruct (X21_date_range_needs_both_dates ToDate_query carol
                [("startDate", Str "2023-11-01")] diary
                (or_intror (or_introl eq_refl)))
      as (error & Heq & _ & Hend).
    exists error. split; [exact Heq|]. apply Hend. left. reflexivity.
  - assert (Hs : lookup "startDate"
                   [("startDate", Str "yesterday"); ("endDate", Str "2023-11-15")] = None
                 \/ exists x,
                      lookup "startDate"
                        [("startDate", Str "yesterday"); ("endDate", Str "2023-11-15")]
                      = Some x
                      /\ newDate ToDate_query x = None).
    { right. exists (Str "yesterday"). split; reflexivity. }
    destruct (X21_date_range_needs_both_dates ToDate_query carol
                [("startDate", Str "yesterday"); ("endDate", Str "2023-11-15")] diary
                (or_introl Hs))
      as (error & Heq & Hstart & _).
    exists error. split; [exact Heq|]. apply Hstart. exact Hs.
Defined.

(** Carol's recent expenses and those of a range are among all of hers,
    and her summary counts all four. *)
Lemma X22_witness :
  exists all,
    get_all carol diary = (mkResponse 200 (Expenses all), diary)
    /\ incl [hotel; train] all
    /\ incl [train] all
    /\ length all = 4%nat.
Proof.
  destruct (X22_listings_are_consistent ToDate_query thirtyDaysBefore carol diary)
    as (all & Heq & Hrecent & Hrange & Hsummary).
  exists all. split; [exact Heq|]. split; [|split].
  - apply (Hrecent 1700500000000%Z). reflexivity.
  - apply (Hrange (Obj [("startDate", Str "2023-11-01"); ("endDate", Str "2023-11-15")])).
    reflexivity.
  - symmetry.
    apply (Hsummary [Group.mk T_expense (0 + 3 + 60 + 120) 3
                       ((0 + 3 + 60 + 120) / inject_Z (Z.of_nat 3));
                     Group.mk T_income (0 + 20) 1 ((0 + 20) / inject_Z (Z.of_nat 1))]
             (0 + 20) (0 + 3 + 60 + 120) ((0 + 20) - (0 + 3 + 60 + 120))).
    reflexivity.
Defined.


